(** * Users REST API: pagination links, error classification and record mapping

    A shallow embedding of the pure and error-handling parts of the
    FastAPI users service:

    - [services/api_pagination_service.py]  (total pages, previous/next links)
    - [server_error.py], [api/utils/api_error_handler.py]
    - [api/components/user/user_mapper.py], [api/utils/dict_to_obj.py]
    - [api/components/user/user_repository.py], [user_service.py]
    - [services/db_service.py]  (the [async_engine] property, connecting,
      disconnecting and the liveness probe)
    - [api/components/user/user_controller.py]  (the routes for one user)
    - [config/config.py], [api/components/health_check/]

    Python integers are unbounded and are modelled by [Z]; [str] values by
    [string]; [None]-able values by [option]; a call that may raise by
    [result]. *)

From Stdlib Require Import ZArith Lia List Bool Ascii String DecimalString.
From Stdlib Require Import Floats.SpecFloat.
Import ListNotations.

Local Open Scope string_scope.
Local Open Scope Z_scope.

(** ** Python primitives used by the sources *)

Module Py.

(** [str(n)] / [f"{n}"] for an [int]. *)
Definition str_of_int (n : Z) : string :=
  NilZero.string_of_int (Z.to_int n).

(** [s.startswith(p)]. *)
Fixpoint startswith (p s : string) : bool :=
  match p with
  | EmptyString => true
  | String a p' =>
      match s with
      | EmptyString => false
      | String b s' => Ascii.eqb a b && startswith p' s'
      end
  end.

(** [sub in s] for strings. *)
Fixpoint contains (sub s : string) : bool :=
  startswith sub s ||
  match s with
  | EmptyString => false
  | String _ s' => contains sub s'
  end.

(** [re.sub(r"(page=)[^&]", rf"\g<1>{n}", s)], with [repl] the decimal
    text of [n]: scanning left to right, every non-overlapping occurrence
    of the five characters [page=] followed by one character other than
    [&] is replaced by [page=] followed by [repl]; everything else is
    copied. *)
Fixpoint re_sub_page (repl : string) (s : string) : string :=
  match s with
  | EmptyString => EmptyString
  | String c1 rest =>
      match rest with
      | String _ (String _ (String _ (String _ (String x tl)))) =>
          if startswith "page=" s && negb (Ascii.eqb x "&")
          then "page=" ++ repl ++ re_sub_page repl tl
          else String c1 (re_sub_page repl rest)
      | _ => String c1 (re_sub_page repl rest)
      end
  end.

(** A [datetime.datetime]: the wall-clock reading in microseconds and,
    for an aware value, the UTC offset of its [tzinfo] in minutes. *)
Record datetime := { wall : Z; tzinfo : option Z }.

(** A [uuid.UUID], identified by its [.hex] text. *)
Record UUID := { hex : string }.

(** Library behaviour the sources rely on but do not define. *)
Class Runtime := {
  (** The system's local time zone, as [d.astimezone()] consults it: the
      UTC offset, in minutes, the zone has at [d] (it changes with
      daylight saving time), or [None] when the conversion leaves the
      range the platform's time functions and [datetime] can represent
      and the call raises. *)
  local_utcoffset : datetime -> option Z;
  (** Class and text of the exception of such a call ([OverflowError] or
      [ValueError], by platform). *)
  astimezone_error : datetime -> string * string;
  (** [uuid.UUID(text)]: [None] when the constructor raises [ValueError]. *)
  uuid_of_string : string -> option UUID;
  (** pydantic's lax conversion of a [str] to a [datetime] field. *)
  datetime_of_string : string -> option datetime;
  (** [str(err)] of pydantic's [ValidationError] for a model and the
      fields that failed. *)
  validation_text : string -> list string -> string
}.

End Py.

Import Py.

(** ** api/components/user/user_models.py *)

Record UserRequest := { req_name : string; req_email : string }.

Record User := {
  id : option string;
  name : string;
  email : string;
  created_at : option datetime;
  updated_at : option datetime
}.

Record UserResponse := {
  resp_id : string;
  resp_name : string;
  resp_email : string;
  resp_created_at : datetime;
  resp_updated_at : option datetime
}.

(** ** server_error.py *)

(** [Detail.context] and [Detail.cause] are both [Optional[UnknownType]].
    The contexts built in the sources are the inputs of the failed
    operation.  A cause is [None], a [str], or some other object, which is
    kept by its [str()] text because that is all the service reads of it. *)
Inductive context_t :=
| CtxNone
| CtxStr (s : string)
| CtxUser (u : User)
| CtxUserUpdate (user_id : string) (u : User)
| CtxPage (page limit : Z)
| CtxObj (text : string).

Inductive cause_t :=
| CNone
| CStr (s : string)
| CObj (text : string).

Record Detail := { context : context_t; cause : cause_t }.

(** Exceptions (subclasses of [Exception]).  [ServerError] keeps the
    arguments passed to [__init__]; any other exception class is a
    [PyError] with its class name, its [str(err)] and, when it was raised
    [from] another error, the [str()] of its [__cause__]. *)
Inductive exn :=
| ServerError (message : string) (status_code : option Z) (detail : option Detail)
| PyError (cls : string) (text : string) (dunder_cause : option string).

Inductive result (A : Type) :=
| Return (a : A)
| Raise (e : exn).
Arguments Return {A} a.
Arguments Raise {A} e.

Definition bind {A B : Type} (m : result A) (k : A -> result B) : result B :=
  match m with
  | Return a => k a
  | Raise e => Raise e
  end.

(** [try: body  except Exception as err: handler(err)]. *)
Definition try_except {A : Type} (body : result A) (handler : exn -> result A)
  : result A :=
  match body with
  | Return a => Return a
  | Raise err => handler err
  end.

Declare Scope py_scope.
Delimit Scope py_scope with py.
Notation "x <- m ;; k" := (bind m (fun x => k))
  (at level 61, m at next level, right associativity) : py_scope.
Notation "m ;;; k" := (bind m (fun _ => k))
  (at level 61, right associativity) : py_scope.
Local Open Scope py_scope.

(** [d.astimezone()]: a naive value is read as local time, an aware one
    is moved to the local zone.  A value that is returned is aware, with
    the offset the zone has at that time; at the ends of the range the
    call raises. *)
Definition astimezone `{Runtime} (d : datetime) : result datetime :=
  match local_utcoffset d with
  | Some local =>
      Return {| wall := match tzinfo d with
                        | None => wall d
                        | Some off => wall d + (local - off) * 60000000
                        end;
                tzinfo := Some local |}
  | None =>
      Raise (PyError (fst (astimezone_error d)) (snd (astimezone_error d)) None)
  end.

Definition HTTP_404_NOT_FOUND : Z := 404.
Definition HTTP_422_UNPROCESSABLE_ENTITY : Z := 422.
Definition HTTP_500_INTERNAL_SERVER_ERROR : Z := 500.

(** [str(x)] of a cause. *)
Definition str_of_cause (c : cause_t) : string :=
  match c with
  | CNone => "None"
  | CStr s => s
  | CObj text => text
  end.

(** [f"{status_code}"] for the [Optional[int]] argument. *)
Definition str_of_status (status_code : option Z) : string :=
  match status_code with
  | None => "None"
  | Some n => str_of_int n
  end.

Module ServerErrorAttrs.

(** [self.status_code], as set by [ServerError.__init__]: the argument
    when it is truthy, otherwise 500. *)
Definition status_code (status_code_arg : option Z) : Z :=
  match status_code_arg with
  | Some n => if n =? 0 then HTTP_500_INTERNAL_SERVER_ERROR else n
  | None => HTTP_500_INTERNAL_SERVER_ERROR
  end.

(** [self.is_operational], as set by [ServerError.__init__]. *)
Definition is_operational (status_code_arg : option Z) : bool :=
  if startswith "4" (str_of_status status_code_arg) then true else false.

(** [err.detail.cause].  When no [Detail] was passed, the base
    [HTTPException] stores the status phrase, a [str], in [detail], and
    the attribute access fails. *)
Definition detail_cause (detail : option Detail) : result cause_t :=
  match detail with
  | Some d => Return (cause d)
  | None => Raise (PyError "AttributeError"
                     "'str' object has no attribute 'cause'" None)
  end.

End ServerErrorAttrs.

(** [str(err.__cause__)]: only a [PyError] raised [from] another error has
    a [__cause__]. *)
Definition str_of_dunder_cause (e : exn) : string :=
  match e with
  | PyError _ _ (Some text) => text
  | _ => "None"
  end.

(** ** Python's [int / int] and [math.ceil]

    True division of two [int]s is the binary64 number nearest to the exact
    quotient, ties going to the even significand; it raises
    [ZeroDivisionError] on a zero divisor and [OverflowError] when the
    rounded quotient does not fit.  A finite float is kept as
    [fmant * 2 ^ fexp]. *)

Record float := { fmant : Z; fexp : Z }.

Module PyFloat.

(** [floor (log2 (a / b))] for positive [a] and [b]. *)
Definition log2_quot (a b : Z) : Z :=
  let d := Z.log2 a - Z.log2 b in
  if b * 2 ^ Z.max 0 d <=? a * 2 ^ Z.max 0 (- d) then d else d - 1.

(** [num / den] rounded to the nearest integer, ties to even. *)
Definition round_half_even (num den : Z) : Z :=
  let q := num / den in
  let r := num mod den in
  if 2 * r <? den then q
  else if den <? 2 * r then q + 1
  else if Z.even q then q else q + 1.

(** [a / b]. *)
Definition truediv (a b : Z) : result float :=
  if b =? 0 then
    Raise (PyError "ZeroDivisionError" "division by zero" None)
  else if a =? 0 then
    Return {| fmant := 0; fexp := 0 |}
  else
    let e := Z.max (log2_quot (Z.abs a) (Z.abs b) - 52) (-1074) in
    let m := round_half_even (Z.abs a * 2 ^ Z.max 0 (- e))
                             (Z.abs b * 2 ^ Z.max 0 e) in
    if 2 ^ 1024 * 2 ^ Z.max 0 (- e) <=? m * 2 ^ Z.max 0 e then
      Raise (PyError "OverflowError"
               "integer division result too large for a float" None)
    else
      Return {| fmant := Z.sgn a * Z.sgn b * m; fexp := e |}.

(** [math.ceil(x)]: the least integer not below [x], exactly. *)
Definition ceil (x : float) : Z :=
  - ((- (fmant x * 2 ^ Z.max 0 (fexp x))) / 2 ^ Z.max 0 (- fexp x)).

End PyFloat.

(** ** services/api_pagination_service.py *)

Module APIPaginationService.

(** [__get_total_pages]. *)
Definition get_total_pages (limit total_records : Z) : result Z :=
  x <- PyFloat.truediv total_records limit ;;
  Return (PyFloat.ceil x).

(** [__get_previous_page]. *)
Definition get_previous_page
    (base_url : string) (page limit total_records : Z) : option string :=
  if page =? 1 then None
  else if total_records - (page - 1) * limit <=? 0 then None
  else Some (re_sub_page (str_of_int (page - 1)) base_url).

(** [__get_next_page]. *)
Definition get_next_page
    (base_url : string) (page limit total_records : Z) : option string :=
  if total_records - page * limit <=? 0 then None
  else if contains "page" base_url then
    Some (re_sub_page (str_of_int (page + 1)) base_url)
  else if contains "limit" base_url then
    Some (base_url ++ "&page=" ++ str_of_int (page + 1))
  else
    Some (base_url ++ "?page=" ++ str_of_int (page + 1) ++ "&limit=1").

(** [APIPaginationData] and [APIPaginationResponse], over the record
    type [T]. *)
Record APIPaginationData (T : Type) := {
  data_page : Z;
  data_limit : Z;
  data_total_records : Z;
  data_records : list T
}.
Arguments data_page {T}.
Arguments data_limit {T}.
Arguments data_total_records {T}.
Arguments data_records {T}.

Record APIPaginationResponse (T : Type) := {
  pg_page : Z;
  pg_limit : Z;
  pg_total_pages : Z;
  pg_total_records : Z;
  pg_records : list T;
  pg_previous : option string;
  pg_next : option string
}.
Arguments pg_page {T}.
Arguments pg_limit {T}.
Arguments pg_total_pages {T}.
Arguments pg_total_records {T}.
Arguments pg_records {T}.
Arguments pg_previous {T}.
Arguments pg_next {T}.

(** [create_response]. *)
Definition create_response {T : Type} (base_url : string)
    (api_pagination_data : APIPaginationData T)
  : result (APIPaginationResponse T) :=
  total_pages <- get_total_pages (data_limit api_pagination_data)
                   (data_total_records api_pagination_data) ;;
  Return {| pg_page := data_page api_pagination_data;
            pg_limit := data_limit api_pagination_data;
            pg_total_pages := total_pages;
            pg_total_records := data_total_records api_pagination_data;
            pg_records := data_records api_pagination_data;
            pg_previous :=
              get_previous_page base_url (data_page api_pagination_data)
                (data_limit api_pagination_data)
                (data_total_records api_pagination_data);
            pg_next :=
              get_next_page base_url (data_page api_pagination_data)
                (data_limit api_pagination_data)
                (data_total_records api_pagination_data) |}.

End APIPaginationService.



(** ** Raw objects handed to the mapper *)

Inductive pyval :=
| VNone
| VStr (s : string)
| VDatetime (d : datetime)
| VUUID (u : UUID).

(** A [dict], or an instance of a class with the given attributes. *)
Inductive pyobj :=
| PyDict (items : list (string * pyval))
| PyInstance (cls : string) (attrs : list (string * pyval)).

Fixpoint lookup (key : string) (l : list (string * pyval)) : option pyval :=
  match l with
  | [] => None
  | (k, v) :: l' => if String.eqb k key then Some v else lookup key l'
  end.

(** [setattr(obj, key, value)] on the attribute table. *)
Definition setattr (attrs : list (string * pyval)) (key : string) (value : pyval)
  : list (string * pyval) :=
  (key, value) :: filter (fun kv => negb (String.eqb (fst kv) key)) attrs.

(** [hasattr(raw, key)] and [raw.key], decided by the attributes set on
    the instance.  This is what Python does for the field names the
    mapper reads (no class used here defines one of them; a [dict] has
    keys, not attributes) and, on a [DictToObj] instance, for every name
    that does not start with two underscores: the class and [object]
    define only names of that form. *)
Definition hasattr (raw : pyobj) (key : string) : bool :=
  match raw with
  | PyDict _ => false
  | PyInstance _ attrs =>
      match lookup key attrs with
      | Some _ => true
      | None => false
      end
  end.

Definition class_name (raw : pyobj) : string :=
  match raw with
  | PyDict _ => "dict"
  | PyInstance cls _ => cls
  end.

Definition getattr (raw : pyobj) (key : string) : result pyval :=
  let missing :=
    Raise (PyError "AttributeError"
             ("'" ++ class_name raw ++ "' object has no attribute '" ++ key ++ "'")
             None) in
  match raw with
  | PyDict _ => missing
  | PyInstance _ attrs =>
      match lookup key attrs with
      | Some v => Return v
      | None => missing
      end
  end.

(** api/utils/dict_to_obj.py, for a dictionary whose keys do not start
    with two underscores: each [setattr] is then a plain store on the
    instance. *)
Definition DictToObj (input_dict : list (string * pyval)) : pyobj :=
  PyInstance "DictToObj"
    (fold_left
       (fun attrs kv =>
          let value := match snd kv with
                       | VUUID u => VStr (hex u)
                       | v => v
                       end in
          setattr attrs (fst kv) value)
       input_dict []).

(** A validated [UserRequest] instance seen as a raw object. *)
Definition obj_of_request (r : UserRequest) : pyobj :=
  PyInstance "UserRequest" [("name", VStr (req_name r)); ("email", VStr (req_email r))].

(** ** api/components/user/user_mapper.py *)

Module UserMapper.
Section WithRuntime.
Context `{Runtime}.

(** pydantic's validation of one field: [None] when the value is
    rejected. *)
Definition validate_str (v : pyval) : option string :=
  match v with
  | VStr s => Some s
  | _ => None
  end.

Definition validate_opt_str (v : pyval) : option (option string) :=
  match v with
  | VNone => Some None
  | VStr s => Some (Some s)
  | _ => None
  end.

Definition validate_opt_datetime (v : pyval) : option (option datetime) :=
  match v with
  | VNone => Some None
  | VDatetime d => Some (Some d)
  | VStr s => option_map Some (datetime_of_string s)
  | VUUID _ => None
  end.

Definition failed {A : Type} (field : string) (o : option A) : list string :=
  match o with
  | Some _ => []
  | None => [field]
  end.

(** [User(id=..., name=..., email=..., created_at=..., updated_at=...)]. *)
Definition User_init (id_v name_v email_v created_v updated_v : pyval)
  : result User :=
  let i := validate_opt_str id_v in
  let n := validate_str name_v in
  let e := validate_str email_v in
  let c := validate_opt_datetime created_v in
  let u := validate_opt_datetime updated_v in
  match i, n, e, c, u with
  | Some i', Some n', Some e', Some c', Some u' =>
      Return {| id := i'; name := n'; email := e';
                created_at := c'; updated_at := u' |}
  | _, _, _, _, _ =>
      Raise (PyError "ValidationError"
               (validation_text "User"
                  (failed "id" i ++ failed "name" n ++ failed "email" e
                   ++ failed "created_at" c ++ failed "updated_at" u))
               None)
  end.

(** [UserResponse(...)]: [id] and [created_at] are required and not
    nullable. *)
Definition UserResponse_init
    (id_v : option string) (name_v email_v : string)
    (created_v updated_v : option datetime) : result UserResponse :=
  match id_v, created_v with
  | Some i, Some c =>
      Return {| resp_id := i; resp_name := name_v; resp_email := email_v;
                resp_created_at := c; resp_updated_at := updated_v |}
  | _, _ =>
      Raise (PyError "ValidationError"
               (validation_text "UserResponse"
                  (failed "id" id_v ++ failed "created_at" created_v))
               None)
  end.

Definition to_persistence (user : User) : list (string * pyval) :=
  [("name", VStr (name user)); ("email", VStr (email user))].

Definition to_domain (raw : pyobj) : result User :=
  id_v <- (if hasattr raw "id" then getattr raw "id" else Return VNone) ;;
  name_v <- getattr raw "name" ;;
  email_v <- getattr raw "email" ;;
  created_v <- (if hasattr raw "created_at" then getattr raw "created_at"
                else Return VNone) ;;
  updated_v <- (if hasattr raw "updated_at" then getattr raw "updated_at"
                else Return VNone) ;;
  User_init id_v name_v email_v created_v updated_v.

(** [x.astimezone() if x else x] for an optional timestamp (a
    [datetime] is always truthy). *)
Definition astimezone_if_set (x : option datetime) : result (option datetime) :=
  match x with
  | Some d => d' <- astimezone d ;; Return (Some d')
  | None => Return None
  end.

(** The keyword arguments are evaluated in the order written, then
    [UserResponse] validates them. *)
Definition to_response (user : User) : result UserResponse :=
  created_v <- astimezone_if_set (created_at user) ;;
  updated_v <- astimezone_if_set (updated_at user) ;;
  UserResponse_init (id user) (name user) (email user) created_v updated_v.

End WithRuntime.
End UserMapper.

(** ** api/utils/api_error_handler.py and the handler table of server.py *)

(** The JSON error body together with the response status. *)
Record JSONResponse := {
  body_message : string;
  body_detail : option Detail;
  body_is_operational : bool;
  response_status_code : Z
}.

(** What reaches the application's exception handlers: FastAPI's
    [RequestValidationError] (with its [body] and [errors()]), or any
    exception raised while serving the request. *)
Inductive request_failure :=
| RequestValidationError (body : context_t) (errors : cause_t)
| Unhandled (error : exn).

Section WithRuntime.
Context `{Runtime}.

Definition handle_request_validation_error (body : context_t) (errors : cause_t)
  : JSONResponse :=
  {| body_message := "Validation failed";
     body_detail := Some {| context := body; cause := errors |};
     body_is_operational := true;
     response_status_code := HTTP_422_UNPROCESSABLE_ENTITY |}.

(** Whether [model_dump()] of a context leaves a [datetime] in the
    content handed to [JSONResponse]. *)
Definition holds_datetime (c : context_t) : bool :=
  match c with
  | CtxUser u | CtxUserUpdate _ u =>
      match created_at u, updated_at u with
      | None, None => false
      | _, _ => true
      end
  | _ => false
  end.

(** [APIErrorResponse.detail] is [Detail | None]; the status phrase
    stored when the error was built without a [Detail] is rejected by
    the model.  [JSONResponse] renders its content with [json.dumps],
    which has no encoding for a [datetime]. *)
Definition handle_server_error
    (message : string) (status_code : option Z) (detail : option Detail)
  : result JSONResponse :=
  match detail with
  | Some d =>
      if holds_datetime (context d) then
        Raise (PyError "TypeError"
                 "Object of type datetime is not JSON serializable" None)
      else
      Return {| body_message := message;
                body_detail := Some d;
                body_is_operational := ServerErrorAttrs.is_operational status_code;
                response_status_code := ServerErrorAttrs.status_code status_code |}
  | None =>
      Raise (PyError "ValidationError"
               (validation_text "APIErrorResponse" ["detail"]) None)
  end.

(** The handler registered for [Exception].  [ServerError] has a handler
    of its own, so this one receives the other classes, and it raises for
    each of them: for an error whose first argument is a [str], the
    content is built and reading [error.status_code], an attribute they
    do not have, fails. *)
Definition handle_common_error (cls text : string) : result JSONResponse :=
  Raise (PyError "AttributeError"
           ("'" ++ cls ++ "' object has no attribute 'status_code'") None).

(** [Server.__init__]: the [exception_handlers] table. *)
Definition exception_handlers (f : request_failure) : result JSONResponse :=
  match f with
  | RequestValidationError body errors =>
      Return (handle_request_validation_error body errors)
  | Unhandled (ServerError message status_code detail) =>
      handle_server_error message status_code detail
  | Unhandled (PyError cls text _) =>
      handle_common_error cls text
  end.

End WithRuntime.

(** ** The database driver, as one repository call sees it

    Every repository method opens one connection, executes one statement
    and then commits or rolls back.  The records below give the outcome of
    each of these driver calls.  Leaving the [async with] block releases
    the connection and is taken not to raise. *)

Record Row := {
  row_id : UUID;
  row_name : string;
  row_email : string;
  row_created_at : datetime;
  row_updated_at : option datetime
}.

(** [row._asdict()]. *)
Definition asdict (r : Row) : list (string * pyval) :=
  [("id", VUUID (row_id r));
   ("created_at", VDatetime (row_created_at r));
   ("updated_at", match row_updated_at r with
                  | Some d => VDatetime d
                  | None => VNone
                  end);
   ("name", VStr (row_name r));
   ("email", VStr (row_email r))].

Inductive statement :=
| InsertUser (values : list (string * pyval))
| SelectUser (user_id : UUID)
| UpdateUser (user_id : UUID) (new_name new_email : string)
| DeleteUser (user_id : UUID).

Record CursorResult := { rowcount : Z; first : option Row }.

Record AsyncConnection := {
  execute : statement -> result CursorResult;
  commit : result unit;
  rollback : result unit
}.

Record AsyncEngine := { connect : result AsyncConnection }.

(** services/db_service.py: the [__async_engine] field and the
    [async_engine] property. *)
Record DBService := { private_async_engine : option AsyncEngine }.

Definition async_engine (db_service : DBService) : result AsyncEngine :=
  match private_async_engine db_service with
  | Some engine => Return engine
  | None =>
      Raise (ServerError "Async engine is None!"
               (Some HTTP_500_INTERNAL_SERVER_ERROR) None)
  end.

(** ** api/components/user/user_repository.py *)

(** [IUserRepository], without the listing operation. *)
Record IUserRepository := {
  create_user : User -> result (option User);
  read_user : string -> result (option User);
  update_user : string -> User -> result (option User);
  delete_user : string -> result (option User)
}.

Module UserRepository.
Section WithRuntime.
Context `{Runtime}.
Variable db_service : DBService.

(** [UUID(user_id)]. *)
Definition UUID_init (user_id : string) : result UUID :=
  match uuid_of_string user_id with
  | Some u => Return u
  | None =>
      Raise (PyError "ValueError" "badly formed hexadecimal UUID string" None)
  end.

(** [result.first()._asdict()] wrapped by [DictToObj]. *)
Definition first_obj (res : CursorResult) : result pyobj :=
  match first res with
  | Some row => Return (DictToObj (asdict row))
  | None =>
      Raise (PyError "AttributeError"
               "'NoneType' object has no attribute '_asdict'" None)
  end.

(** The shared [except Exception as err] branch: roll back, then raise
    the wrapped error. *)
Definition on_error {A : Type} (conn : AsyncConnection) (message : string)
    (ctx : context_t) (err : exn) : result A :=
  rollback conn ;;;
  Raise (ServerError message (Some HTTP_500_INTERNAL_SERVER_ERROR)
           (Some {| context := ctx; cause := CStr (str_of_dunder_cause err) |})).

Definition create_user (user : User) : result (option User) :=
  engine <- async_engine db_service ;;
  conn <- connect engine ;;
  try_except
    (let raw_user_data := UserMapper.to_persistence user in
     res <- execute conn (InsertUser raw_user_data) ;;
     obj <- first_obj res ;;
     commit conn ;;;
     u <- UserMapper.to_domain obj ;;
     Return (Some u))
    (on_error conn "An error occurred when creating a user into database"
       (CtxUser user)).

Definition read_user (user_id : string) : result (option User) :=
  engine <- async_engine db_service ;;
  conn <- connect engine ;;
  try_except
    (uid <- UUID_init user_id ;;
     res <- execute conn (SelectUser uid) ;;
     if rowcount res =? 0 then Return None
     else
       obj <- first_obj res ;;
       commit conn ;;;
       u <- UserMapper.to_domain obj ;;
       Return (Some u))
    (on_error conn "An error occurred when reading a user from database"
       (CtxStr user_id)).

Definition update_user (user_id : string) (user : User) : result (option User) :=
  engine <- async_engine db_service ;;
  conn <- connect engine ;;
  try_except
    (uid <- UUID_init user_id ;;
     res <- execute conn (UpdateUser uid (name user) (email user)) ;;
     if rowcount res =? 0 then Return None
     else
       obj <- first_obj res ;;
       commit conn ;;;
       u <- UserMapper.to_domain obj ;;
       Return (Some u))
    (on_error conn "An error occurred when updating a user from database"
       (CtxUserUpdate user_id user)).

Definition delete_user (user_id : string) : result (option User) :=
  engine <- async_engine db_service ;;
  conn <- connect engine ;;
  try_except
    (uid <- UUID_init user_id ;;
     res <- execute conn (DeleteUser uid) ;;
     if rowcount res =? 0 then Return None
     else
       obj <- first_obj res ;;
       commit conn ;;;
       u <- UserMapper.to_domain obj ;;
       Return (Some u))
    (on_error conn "An error occurred when deleting a user from database"
       (CtxStr user_id)).

(** The class as an [IUserRepository]. *)
Definition make : IUserRepository :=
  Build_IUserRepository create_user read_user update_user delete_user.

End WithRuntime.
End UserRepository.

(** ** api/components/user/user_service.py *)

Module UserService.
Section WithRepository.
Variable user_repository : IUserRepository.

(** [str(err.detail.cause) if isinstance(err, ServerError) else str(err)]. *)
Definition cause_of_error (err : exn) : result string :=
  match err with
  | ServerError _ _ detail =>
      c <- ServerErrorAttrs.detail_cause detail ;;
      Return (str_of_cause c)
  | PyError _ text _ => Return text
  end.

(** The shared [except Exception as err] branch. *)
Definition on_error {A : Type} (message : string) (ctx : context_t) (err : exn)
  : result A :=
  c <- cause_of_error err ;;
  Raise (ServerError message (Some HTTP_500_INTERNAL_SERVER_ERROR)
           (Some {| context := ctx; cause := CStr c |})).

(** The shared [if ... is None] branch. *)
Definition on_none {A : Type} (message : string) (status_code : Z)
    (ctx : context_t) : result A :=
  Raise (ServerError message (Some status_code)
           (Some {| context := ctx; cause := CNone |})).

Definition register_user (user : User) : result User :=
  new_user <- try_except (create_user user_repository user)
                (on_error "An error occurred when creating a user" (CtxUser user)) ;;
  match new_user with
  | None => on_none "User could not be created"
              HTTP_500_INTERNAL_SERVER_ERROR (CtxUser user)
  | Some u => Return u
  end.

Definition retrieve_user (user_id : string) : result User :=
  user <- try_except (read_user user_repository user_id)
            (on_error "An error occurred when reading a user" (CtxStr user_id)) ;;
  match user with
  | None => on_none "User could not be read" HTTP_404_NOT_FOUND (CtxStr user_id)
  | Some u => Return u
  end.

Definition replace_user (user_id : string) (user : User) : result User :=
  updated_user <- try_except (update_user user_repository user_id user)
                    (on_error "An error occurred when updating a user"
                       (CtxUserUpdate user_id user)) ;;
  match updated_user with
  | None => on_none "User could not be updated" HTTP_404_NOT_FOUND
              (CtxUserUpdate user_id user)
  | Some u => Return u
  end.

Definition remove_user (user_id : string) : result User :=
  user <- try_except (delete_user user_repository user_id)
            (on_error "An error occurred when deleting a user" (CtxStr user_id)) ;;
  match user with
  | None => on_none "User could not be removed" HTTP_404_NOT_FOUND (CtxStr user_id)
  | Some u => Return u
  end.

End WithRepository.
End UserService.

(** ** api/components/user/user_controller.py *)

Definition HTTP_200_OK : Z := 200.
Definition HTTP_201_CREATED : Z := 201.

(** The route functions for one user: the status set on the response and
    the returned [UserResponse]. *)
Module UserController.
Section WithRuntime.
Context `{Runtime}.
Variable user_repository : IUserRepository.

Definition add_user (user_request : UserRequest) : result (Z * UserResponse) :=
  domain_user <- UserMapper.to_domain (obj_of_request user_request) ;;
  returned_user <- UserService.register_user user_repository domain_user ;;
  user_response <- UserMapper.to_response returned_user ;;
  Return (HTTP_201_CREATED, user_response).

Definition fetch_user (user_id : string) : result (Z * UserResponse) :=
  retrieved_user <- UserService.retrieve_user user_repository user_id ;;
  user_response <- UserMapper.to_response retrieved_user ;;
  Return (HTTP_200_OK, user_response).

Definition renew_user (user_id : string) (user_request : UserRequest)
  : result (Z * UserResponse) :=
  domain_user <- UserMapper.to_domain (obj_of_request user_request) ;;
  returned_user <- UserService.replace_user user_repository user_id domain_user ;;
  user_response <- UserMapper.to_response returned_user ;;
  Return (HTTP_200_OK, user_response).

Definition destroy_user (user_id : string) : result (Z * UserResponse) :=
  returned_user <- UserService.remove_user user_repository user_id ;;
  user_response <- UserMapper.to_response returned_user ;;
  Return (HTTP_200_OK, user_response).

End WithRuntime.
End UserController.

(** What the client of a user route receives: the route's status and
    body; or, when the route raised, the error body chosen by the
    [exception_handlers] table of server.py; or nothing from this
    application when that handler raised as well. *)
Inductive http_outcome :=
| Success (status : Z) (body : UserResponse)
| Failure (response : JSONResponse)
| HandlerRaised (e : exn).

Definition respond `{Runtime} (r : result (Z * UserResponse)) : http_outcome :=
  match r with
  | Return (status, body) => Success status body
  | Raise e =>
      match exception_handlers (Unhandled e) with
      | Return response => Failure response
      | Raise e' => HandlerRaised e'
      end
  end.

(** ** config/config.py *)

Module Config.

(** [os.environ]. *)
Definition environ : Type := string -> option string.

(** [__get_env_var]. *)
Definition get_env_var (env : environ) (name : string) : result string :=
  match env name with
  | None =>
      Raise (ServerError (name ++ " environment variable isn't set!")
               (Some HTTP_500_INTERNAL_SERVER_ERROR) None)
  | Some value => Return value
  end.

Definition get_log_level (env : environ) := get_env_var env "LOG_LEVEL".
Definition get_env (env : environ) := get_env_var env "ENV".
Definition get_port (env : environ) := get_env_var env "PORT".
Definition get_database_url (env : environ) := get_env_var env "DATABASE_URL".
Definition get_database_username (env : environ) := get_env_var env "DATABASE_USERNAME".
Definition get_database_password (env : environ) := get_env_var env "DATABASE_PASSWORD".
Definition get_database_name (env : environ) := get_env_var env "DATABASE_NAME".
Definition get_database_port (env : environ) := get_env_var env "DATABASE_PORT".
Definition get_allowed_origins (env : environ) := get_env_var env "ALLOWED_ORIGINS".

Definition NUL : ascii := ascii_of_nat 0.

(** [set_database_url]: [os.environ[...] = value] refuses a value with an
    embedded null character. *)
Definition set_database_url (env : environ) (database_url : string)
  : result environ :=
  if contains (String NUL "") database_url then
    Raise (PyError "ValueError" "embedded null byte" None)
  else
    Return (fun name => if String.eqb name "DATABASE_URL" then Some database_url
                        else env name).

End Config.

(** ** services/db_service.py: the engine's life cycle *)

Module DBServiceOps.
Section WithDriver.
(** [sqlalchemy.ext.asyncio.create_async_engine] and [engine.dispose()]. *)
Variable create_async_engine : string -> result AsyncEngine.
Variable dispose : AsyncEngine -> result unit.

(** [connect_database]: the service after the call. *)
Definition connect_database (db_service : DBService) (database_url : string)
  : result DBService :=
  try_except
    (engine <- create_async_engine database_url ;;
     Return {| private_async_engine := Some engine |})
    (fun err =>
       Raise (ServerError "An error occurred when connecting to database"
                (Some HTTP_500_INTERNAL_SERVER_ERROR)
                (Some {| context := CtxStr database_url;
                         cause := CStr (str_of_dunder_cause err) |}))).

(** [disconnect_database]: the service after the call. *)
Definition disconnect_database (db_service : DBService) : result DBService :=
  try_except
    (match private_async_engine db_service with
     | Some engine =>
         dispose engine ;;;
         Return {| private_async_engine := None |}
     | None =>
         Raise (PyError "AttributeError"
                  "'NoneType' object has no attribute 'dispose'" None)
     end)
    (fun err =>
       Raise (ServerError "An error occurred when disconnecting the database"
                (Some HTTP_500_INTERNAL_SERVER_ERROR)
                (Some {| context := CtxNone;
                         cause := CStr (str_of_dunder_cause err) |}))).

End WithDriver.
End DBServiceOps.

(** ** The health check

    [check_database_is_alive] runs the textual statement [SELECT 1] on a
    connection of the engine field, which it reads directly and not
    through the [async_engine] property.  The record gives the outcomes of
    the driver calls of one such probe. *)

Record ProbeConnection := {
  probe_execute : string -> result unit;
  probe_commit : result unit;
  probe_rollback : result unit
}.

Record ProbeEngine := { probe_connect : result ProbeConnection }.

Record HealthCheckResponse := { healthy : bool }.

Module HealthCheck.
Section WithEngine.
Variable private_async_engine : option ProbeEngine.

(** services/db_service.py: [check_database_is_alive]. *)
Definition check_database_is_alive : result bool :=
  engine <- match private_async_engine with
            | Some engine => Return engine
            | None =>
                Raise (PyError "AttributeError"
                         "'NoneType' object has no attribute 'connect'" None)
            end ;;
  conn <- probe_connect engine ;;
  try_except
    (probe_execute conn "SELECT 1" ;;;
     probe_commit conn ;;;
     Return true)
    (fun err =>
       probe_rollback conn ;;;
       Raise (ServerError "An error occurred when checking database is alive"
                (Some HTTP_500_INTERNAL_SERVER_ERROR)
                (Some {| context := CtxNone;
                         cause := CStr (str_of_dunder_cause err) |}))).

(** health_check_service.py: [check_health]; the [except] branch reads the
    cause as [UserService] does. *)
Definition check_health : result bool :=
  try_except check_database_is_alive
    (fun err =>
       c <- UserService.cause_of_error err ;;
       Raise (ServerError "An error occurred when checking if application is healthy"
                (Some HTTP_500_INTERNAL_SERVER_ERROR)
                (Some {| context := CtxNone; cause := CStr c |}))).

(** health_check_mapper.py: [to_response]. *)
Definition to_response (is_healthy : bool) : HealthCheckResponse :=
  {| healthy := is_healthy |}.

(** health_check_controller.py: [get_health]. *)
Definition get_health : result (Z * HealthCheckResponse) :=
  is_healthy <- check_health ;;
  Return (HTTP_200_OK, to_response is_healthy).

End WithEngine.
End HealthCheck.

(** ** Vocabulary of the specification *)

(** The ceiling of the exact quotient [a / b], for [b > 0]. *)
Definition ceil_div (a b : Z) : Z := - ((- a) / b).

(** Agreement of [PyFloat.truediv] with the IEEE 754 division of the
    standard library's [SpecFloat], at binary64, on two positive integers. *)
Definition agrees_with_ieee (a b : positive) : bool :=
  match PyFloat.truediv (Zpos a) (Zpos b),
        SFdiv 53 1024 (S754_finite false a 0) (S754_finite false b 0) with
  | Return x, S754_finite false m e =>
      fmant x * 2 ^ Z.max 0 (fexp x - e) =? Zpos m * 2 ^ Z.max 0 (e - fexp x)
  | Return x, S754_zero _ => fmant x =? 0
  | Raise _, S754_infinity _ => true
  | _, _ => false
  end.

(** The domain user and the wire response that correspond to a storage
    row. *)
Definition user_of_row (row : Row) : User :=
  {| id := Some (hex (row_id row));
     name := row_name row;
     email := row_email row;
     created_at := Some (row_created_at row);
     updated_at := row_updated_at row |}.

Definition response_of_row
    (row : Row) (created : datetime) (updated : option datetime) : UserResponse :=
  {| resp_id := hex (row_id row);
     resp_name := row_name row;
     resp_email := row_email row;
     resp_created_at := created;
     resp_updated_at := updated |}.

(** The local-zone conversion of the two timestamps of a row, in the
    order [to_response] makes them. *)
Definition local_timestamps `{Runtime} (row : Row)
  : result (datetime * option datetime) :=
  created <- astimezone (row_created_at row) ;;
  updated <- UserMapper.astimezone_if_set (row_updated_at row) ;;
  Return (created, updated).

(** What a route that renders [row] hands back: the status with the
    row's fields and converted timestamps, or the error of the
    conversion. *)
Definition row_answer `{Runtime} (status : Z) (row : Row)
  : result (Z * UserResponse) :=
  ts <- local_timestamps row ;;
  Return (status, response_of_row row (fst ts) (snd ts)).

(** The two ways a route that was handed [row] can end: the client
    receives [status] with the rendering of the row; or the conversion of a
    timestamp raised, the handler for that error raised as well, and the
    application produced no body. *)
Definition answers_row `{Runtime} (out : http_outcome) (status : Z) (row : Row) : Prop :=
  exists created updated,
    local_timestamps row = Return (created, updated)
    /\ out = Success status (response_of_row row created updated).

Definition rendering_raised `{Runtime} (out : http_outcome) (row : Row) : Prop :=
  exists e e', local_timestamps row = Raise e /\ out = HandlerRaised e'.

(** A name of the form Python keeps for the attributes of classes and of
    [object] itself ([__class__], [__dict__], [__doc__], ...). *)
Definition reserved_name (key : string) : bool := startswith "__" key.

(** [DictToObj]'s conversion of one value. *)
Definition hex_of_uuid_value (v : pyval) : pyval :=
  match v with
  | VUUID u => VStr (hex u)
  | _ => v
  end.

Definition dict_to_obj_step (attrs : list (string * pyval)) (kv : string * pyval)
  : list (string * pyval) :=
  setattr attrs (fst kv) (hex_of_uuid_value (snd kv)).

(** A URL written from a path and an ordered list of query parameters. *)
Module URL.

Definition param : Type := string * string.

Definition param_text (p : param) : string := fst p ++ "=" ++ snd p.

Fixpoint query_text (ps : list param) : string :=
  match ps with
  | [] => ""
  | p :: ps' =>
      match ps' with
      | [] => param_text p
      | _ :: _ => param_text p ++ "&" ++ query_text ps'
      end
  end.

Definition url_text (path : string) (ps : list param) : string :=
  path ++ "?" ++ query_text ps.

(** The text of a URL before and after one of its parameters. *)
Fixpoint leading_text (ps : list param) : string :=
  match ps with
  | [] => ""
  | p :: ps' => param_text p ++ "&" ++ leading_text ps'
  end.

Fixpoint trailing_text (ps : list param) : string :=
  match ps with
  | [] => ""
  | p :: ps' => "&" ++ param_text p ++ trailing_text ps'
  end.

(** Reading the parameter names back from a URL: the query is what
    follows the first [?]; parameters are separated by [&]; a name ends
    at the first [=]. *)
Fixpoint after_first (c : ascii) (s : string) : option string :=
  match s with
  | EmptyString => None
  | String a s' => if Ascii.eqb a c then Some s' else after_first c s'
  end.

Fixpoint before_first (c : ascii) (s : string) : string :=
  match s with
  | EmptyString => EmptyString
  | String a s' => if Ascii.eqb a c then EmptyString else String a (before_first c s')
  end.

Fixpoint split (c : ascii) (s : string) : list string :=
  match s with
  | EmptyString => [EmptyString]
  | String a s' =>
      if Ascii.eqb a c then EmptyString :: split c s'
      else match split c s' with
           | [] => [String a EmptyString]
           | w :: ws => String a w :: ws
           end
  end.

Definition param_names (url : string) : list string :=
  match after_first "?" url with
  | None => []
  | Some q => map (before_first "=") (split "&" q)
  end.

Definition has_param (key url : string) : bool :=
  existsb (String.eqb key) (param_names url).

Definition is_digit (c : ascii) : bool :=
  let n := nat_of_ascii c in
  (48 <=? n)%nat && (n <=? 57)%nat.

(** Whether the character [c] occurs in [s]. *)
Fixpoint has_char (c : ascii) (s : string) : bool :=
  match s with
  | EmptyString => false
  | String a s' => Ascii.eqb a c || has_char c s'
  end.

(** The URL whose page parameter, between the parameters [before] and
    [after], is the decimal text of [n]. *)
Definition url_at (path : string) (before after : list param) (n : Z) : string :=
  url_text path (before ++ ("page", Py.str_of_int n) :: after).

End URL.

(** A runtime for concrete runs: UTC as the local zone, identifiers of
    thirty-two hexadecimal digits with optional dashes. *)
Module SampleRuntime.

Definition is_hex (c : ascii) : bool :=
  let n := nat_of_ascii c in
  ((48 <=? n) && (n <=? 57) || (97 <=? n) && (n <=? 102)
   || (65 <=? n) && (n <=? 70))%nat.

Fixpoint drop_dashes (s : string) : string :=
  match s with
  | EmptyString => EmptyString
  | String c s' => if Ascii.eqb c "-" then drop_dashes s' else String c (drop_dashes s')
  end.

Fixpoint all_hex (s : string) : bool :=
  match s with
  | EmptyString => true
  | String c s' => is_hex c && all_hex s'
  end.

Definition parse_uuid (s : string) : option UUID :=
  let h := drop_dashes s in
  if (String.length h =? 32)%nat && all_hex h then Some {| hex := h |} else None.

Definition runtime : Runtime :=
  {| local_utcoffset := fun d => if 0 <=? wall d then Some 0 else None;
     astimezone_error := fun _ => ("OverflowError", "date value out of range");
     uuid_of_string := parse_uuid;
     datetime_of_string := fun _ => None;
     validation_text := fun model fields =>
       "validation error for " ++ model ++ ": " ++ String.concat ", " fields |}.

Definition row : Row :=
  {| row_id := {| hex := "0123456789abcdef0123456789abcdef" |};
     row_name := "alice";
     row_email := "a@x.com";
     row_created_at := {| wall := 0; tzinfo := Some 0 |};
     row_updated_at := None |}.

(** A connection on which every statement affects no row. *)
Definition conn_no_rows : AsyncConnection :=
  {| execute := fun _ => Return {| rowcount := 0; first := None |};
     commit := Return tt;
     rollback := Return tt |}.

Definition db_no_rows : DBService :=
  {| private_async_engine := Some {| connect := Return conn_no_rows |} |}.

(** A connection on which every statement affects and returns [row]. *)
Definition conn_one_row : AsyncConnection :=
  {| execute := fun _ => Return {| rowcount := 1; first := Some row |};
     commit := Return tt;
     rollback := Return tt |}.

Definition db_one_row : DBService :=
  {| private_async_engine := Some {| connect := Return conn_one_row |} |}.

(** The same, with a commit that fails. *)
Definition conn_commit_fails : AsyncConnection :=
  {| execute := fun _ => Return {| rowcount := 1; first := Some row |};
     commit := Raise (PyError "DBAPIError" "commit failed" (Some "connection is closed"));
     rollback := Return tt |}.

Definition db_commit_fails : DBService :=
  {| private_async_engine := Some {| connect := Return conn_commit_fails |} |}.

(** A service object on which [connect_database] was never called, or
    [disconnect_database] already was. *)
Definition db_disconnected : DBService :=
  {| private_async_engine := None |}.

End SampleRuntime.

(** The driver calls behind a fetch by identifier went wrong: the
    statement raised, or it affected rows and then the row could not be
    read or the commit raised. *)
Definition operation_failed (conn : AsyncConnection) (stmt : statement) : Prop :=
  (exists e, execute conn stmt = Raise e)
  \/ (exists res, execute conn stmt = Return res
                 /\ rowcount res <> 0
                 /\ (first res = None \/ exists e, commit conn = Raise e)).

(** * Properties *)

Import APIPaginationService.

(** ** Pagination: previous and next links *)

Lemma re_sub_page_example :
  re_sub_page (str_of_int 1) "http://localhost:5002/users?page=2&limit=1"
  = "http://localhost:5002/users?page=1&limit=1".
Proof. reflexivity. Qed.

Lemma get_next_page_example :
  get_next_page "http://localhost:5002/users" 1 1 3
  = Some "http://localhost:5002/users?page=2&limit=1".
Proof. reflexivity. Qed.

(** C2. The previous link is [None] exactly when [page == 1] or
    [total_records - (page - 1) * limit <= 0]; the next link is [None]
    exactly when [total_records - page * limit <= 0].  This holds for every
    base URL and all integers, in particular for every [limit > 0]. *)
Theorem previous_next_none_iff :
  forall (base_url : string) (page limit total_records : Z),
    (get_previous_page base_url page limit total_records = None
     <-> (page = 1 \/ total_records - (page - 1) * limit <= 0))
    /\
    (get_next_page base_url page limit total_records = None
     <-> total_records - page * limit <= 0).
Proof.
  intros base_url page limit total_records. split.
  - unfold get_previous_page.
    destruct (Z.eqb_spec page 1) as [Hp | Hp].
    + split; auto.
    + destruct (Z.leb_spec (total_records - (page - 1) * limit) 0) as [Hl | Hl].
      * split; auto.
      * split; [discriminate | intros [H | H]; [contradiction | lia]].
  - unfold get_next_page.
    destruct (Z.leb_spec (total_records - page * limit) 0) as [Hl | Hl].
    + split; auto.
    + split; [| lia].
      destruct (contains "page" base_url); [discriminate |].
      destruct (contains "limit" base_url); discriminate.
Qed.

(** *** Strings *)

Lemma append_assoc_s (a b c : string) : (a ++ b) ++ c = a ++ (b ++ c).
Proof. induction a as [| x a IH]; simpl; [reflexivity | now rewrite IH]. Qed.

Lemma append_nil_r (a : string) : a ++ "" = a.
Proof. induction a as [| x a IH]; simpl; [reflexivity | now rewrite IH]. Qed.

Lemma contains_cons_false (sub : string) (c : ascii) (s : string) :
  contains sub (String c s) = false ->
  startswith sub (String c s) = false /\ contains sub s = false.
Proof.
  intros Hc. change (contains sub (String c s))
    with (startswith sub (String c s) || contains sub s) in Hc.
  now apply orb_false_iff in Hc.
Qed.

(** *** The substitution, one step at a time *)

Lemma re_sub_page_skip (repl : string) (c : ascii) (rest : string) :
  startswith "page=" (String c rest) = false ->
  re_sub_page repl (String c rest) = String c (re_sub_page repl rest).
Proof.
  intros Hs.
  destruct rest as [| c2 [| c3 [| c4 [| c5 [| x tl]]]]]; try reflexivity.
  change (re_sub_page repl (String c (String c2 (String c3 (String c4 (String c5 (String x tl)))))))
    with (if startswith "page=" (String c (String c2 (String c3 (String c4 (String c5 (String x tl))))))
             && negb (Ascii.eqb x "&")
          then "page=" ++ repl ++ re_sub_page repl tl
          else String c (re_sub_page repl (String c2 (String c3 (String c4 (String c5 (String x tl))))))).
  now rewrite Hs.
Qed.

Lemma re_sub_page_hit (repl : string) (x : ascii) (tl : string) :
  Ascii.eqb x "&" = false ->
  re_sub_page repl ("page=" ++ String x tl) = "page=" ++ repl ++ re_sub_page repl tl.
Proof.
  intros Hx.
  change (re_sub_page repl ("page=" ++ String x tl))
    with (if startswith "page=" ("page=" ++ String x tl) && negb (Ascii.eqb x "&")
          then "page=" ++ repl ++ re_sub_page repl tl
          else String "p" (re_sub_page repl ("age=" ++ String x tl))).
  now rewrite Hx.
Qed.

Lemma re_sub_page_no_match (repl s : string) :
  contains "page=" s = false -> re_sub_page repl s = s.
Proof.
  induction s as [| c s IH]; intros Hc; [reflexivity |].
  apply contains_cons_false in Hc as [Hs Hc].
  rewrite re_sub_page_skip by exact Hs. now rewrite IH.
Qed.

(** An occurrence of [page=] cannot begin inside a text that has none and
    end inside a following [page=]. *)
Lemma startswith_page_straddle (c : ascii) (pre rest : string) :
  startswith "page=" (String c pre) = false ->
  startswith "page=" (String c pre ++ "page=" ++ rest) = false.
Proof.
  intros Hs.
  destruct pre as [| a1 [| a2 [| a3 [| a4 pre]]]]; simpl in *;
    try exact Hs;
    repeat match goal with
           | |- context [Ascii.eqb ?a c] => destruct (Ascii.eqb a c); simpl; try reflexivity
           | |- context [Ascii.eqb ?a a1] => destruct (Ascii.eqb a a1); simpl; try reflexivity
           | |- context [Ascii.eqb ?a a2] => destruct (Ascii.eqb a a2); simpl; try reflexivity
           | |- context [Ascii.eqb ?a a3] => destruct (Ascii.eqb a a3); simpl; try reflexivity
           end.
Qed.

Lemma re_sub_page_prefix (repl pre rest : string) :
  contains "page=" pre = false ->
  re_sub_page repl (pre ++ "page=" ++ rest)
  = pre ++ re_sub_page repl ("page=" ++ rest).
Proof.
  induction pre as [| c pre IH]; intros Hc; [reflexivity |].
  apply contains_cons_false in Hc as [Hs Hc].
  change (String c pre ++ "page=" ++ rest) with (String c (pre ++ "page=" ++ rest)).
  rewrite re_sub_page_skip.
  - rewrite IH by exact Hc. reflexivity.
  - apply (startswith_page_straddle c pre rest Hs).
Qed.

(** The substitution on a text with exactly one occurrence of [page=]. *)
Lemma re_sub_page_single (repl pre : string) (x : ascii) (suf : string) :
  contains "page=" pre = false ->
  contains "page=" suf = false ->
  Ascii.eqb x "&" = false ->
  re_sub_page repl (pre ++ "page=" ++ String x suf) = pre ++ "page=" ++ repl ++ suf.
Proof.
  intros Hpre Hsuf Hx.
  rewrite re_sub_page_prefix by exact Hpre.
  rewrite re_sub_page_hit by exact Hx.
  now rewrite re_sub_page_no_match by exact Hsuf.
Qed.

(** *** URLs *)

Lemma query_text_cons (p : URL.param) (after : list URL.param) :
  URL.query_text (p :: after) = URL.param_text p ++ URL.trailing_text after.
Proof.
  revert p. induction after as [| r after IH]; intros p.
  - simpl. now rewrite append_nil_r.
  - change (URL.query_text (p :: r :: after))
      with (URL.param_text p ++ "&" ++ URL.query_text (r :: after)).
    rewrite IH. reflexivity.
Qed.

Lemma query_text_app (before : list URL.param) (p : URL.param)
    (after : list URL.param) :
  URL.query_text (before ++ p :: after)
  = URL.leading_text before ++ URL.query_text (p :: after).
Proof.
  induction before as [| q before IH]; [reflexivity |].
  change (URL.leading_text (q :: before))
    with (URL.param_text q ++ "&" ++ URL.leading_text before).
  rewrite !append_assoc_s. rewrite <- IH.
  destruct before; reflexivity.
Qed.

Lemma url_text_split (path : string) (before : list URL.param) (p : URL.param)
    (after : list URL.param) :
  URL.url_text path (before ++ p :: after)
  = (path ++ "?" ++ URL.leading_text before)
    ++ URL.param_text p ++ URL.trailing_text after.
Proof.
  unfold URL.url_text.
  rewrite query_text_app, query_text_cons, !append_assoc_s. reflexivity.
Qed.

Lemma is_digit_not_amp (d : ascii) : URL.is_digit d = true -> Ascii.eqb d "&" = false.
Proof.
  intros Hd. destruct (Ascii.eqb_spec d "&") as [-> | Hne]; [discriminate | reflexivity].
Qed.

(** C3. The links computed for the request URL
    [http://localhost:5002/users?perpage=5&page=2], whose page parameter is
    a single digit, at page 2 with limit 1 and 5 records.  The pattern is
    not anchored at the start of a parameter name, so it also matches
    inside [perpage=5]: the next link has [perpage=3] and the previous
    link has [perpage=1], where both should keep [perpage=5]. *)
Theorem rewrite_touches_other_parameter :
  let base_url := "http://localhost:5002/users?perpage=5&page=2" in
  base_url = URL.url_text "http://localhost:5002/users" [("perpage", "5"); ("page", "2")]
  /\ get_next_page base_url 2 1 5
     = Some (URL.url_text "http://localhost:5002/users" [("perpage", "3"); ("page", "3")])
  /\ get_previous_page base_url 2 1 5
     = Some (URL.url_text "http://localhost:5002/users" [("perpage", "1"); ("page", "1")])
  /\ get_next_page base_url 2 1 5
     <> Some (URL.url_text "http://localhost:5002/users" [("perpage", "5"); ("page", "3")])
  /\ get_previous_page base_url 2 1 5
     <> Some (URL.url_text "http://localhost:5002/users" [("perpage", "5"); ("page", "1")]).
Proof.
  cbv zeta. split; [reflexivity |]. split; [reflexivity |]. split; [reflexivity |].
  split; vm_compute; discriminate.
Qed.

(** Where the substitution does what the links need: when the text
    [page=] occurs in the base URL only as the name of the page parameter
    and that parameter's value is a single digit, the result is the same
    URL with the page parameter set to the target page and every other
    parameter untouched.  With a two-digit value only the first digit is
    replaced: stepping from page 10 to page 11 yields a URL whose page
    parameter is 110. *)
Lemma rewrite_single_digit_page :
  (forall (path : string) (before after : list URL.param) (d : ascii) (target : Z),
      URL.is_digit d = true ->
      contains "page=" (path ++ "?" ++ URL.leading_text before) = false ->
      contains "page=" (URL.trailing_text after) = false ->
      re_sub_page (str_of_int target)
        (URL.url_text path (before ++ ("page", String d "") :: after))
      = URL.url_text path (before ++ ("page", str_of_int target) :: after))
  /\
  (re_sub_page (str_of_int 11)
     (URL.url_text "http://localhost:5002/users" [("page", "10"); ("limit", "1")])
   = URL.url_text "http://localhost:5002/users" [("page", "110"); ("limit", "1")]
   /\ "110" <> str_of_int 11).
Proof.
  split.
  - intros path before after d target Hd Hpre Hsuf.
    rewrite !url_text_split.
    change (URL.param_text ("page", String d "") ++ URL.trailing_text after)
      with ("page=" ++ String d (URL.trailing_text after)).
    change (URL.param_text ("page", str_of_int target) ++ URL.trailing_text after)
      with ("page=" ++ str_of_int target ++ URL.trailing_text after).
    apply (re_sub_page_single (str_of_int target) _ d _ Hpre Hsuf (is_digit_not_amp d Hd)).
  - split; [reflexivity | vm_compute; discriminate].
Qed.

Lemma rewrite_single_digit_page_witness :
  URL.is_digit "2" = true
  /\ re_sub_page (str_of_int 3)
       (URL.url_text "http://localhost:5002/users"
          ([("limit", "1")] ++ [("page", "2"); ("order", "desc")]))
     = URL.url_text "http://localhost:5002/users"
         ([("limit", "1")] ++ [("page", str_of_int 3); ("order", "desc")]).
Proof.
  split; [reflexivity |].
  apply (proj1 rewrite_single_digit_page "http://localhost:5002/users"
           [("limit", "1")] [("order", "desc")] "2"%char 3);
    reflexivity.
Defined.

(** C4. The next link for request URLs that have a limit parameter and no
    page parameter, at page 1 with limit 1 and 3 records, where the link
    should be the URL followed by [&page=2].  The branch is chosen by
    looking for the text [page] anywhere in the URL: a parameter named
    [pages], or a host name containing [page], sends the URL to the
    substitution, which finds no [page=] to rewrite, and the next link is
    the request URL itself. *)
Theorem next_page_tests_text_not_parameter :
  let base_url := "http://localhost:5002/users?limit=1&pages=3" in
  let homepage_url := "http://homepage.local/users?limit=1" in
  URL.has_param "page" base_url = false
  /\ URL.has_param "limit" base_url = true
  /\ get_next_page base_url 1 1 3 = Some base_url
  /\ get_next_page base_url 1 1 3 <> Some (base_url ++ "&page=" ++ str_of_int (1 + 1))
  /\ URL.has_param "page" homepage_url = false
  /\ URL.has_param "limit" homepage_url = true
  /\ get_next_page homepage_url 1 1 3 = Some homepage_url
  /\ get_next_page homepage_url 1 1 3
     <> Some (homepage_url ++ "&page=" ++ str_of_int (1 + 1)).
Proof.
  cbv zeta.
  repeat (split; [first [reflexivity | vm_compute; discriminate] |]).
  vm_compute. discriminate.
Qed.

(** The branches of [__get_next_page] as they are written.  Whenever the
    next link is not [None]: if the text [page] occurs anywhere in the base
    URL, the link is the base URL after the substitution of [page + 1];
    else if the text [limit] occurs in it, the link is the base URL
    followed by [&page={page+1}]; otherwise it is the base URL followed by
    [?page={page+1}&limit=1]. *)
Lemma next_page_cases :
  forall (base_url : string) (page limit total_records : Z),
    get_next_page base_url page limit total_records <> None ->
    (contains "page" base_url = true ->
     get_next_page base_url page limit total_records
     = Some (re_sub_page (str_of_int (page + 1)) base_url))
    /\
    (contains "page" base_url = false -> contains "limit" base_url = true ->
     get_next_page base_url page limit total_records
     = Some (base_url ++ "&page=" ++ str_of_int (page + 1)))
    /\
    (contains "page" base_url = false -> contains "limit" base_url = false ->
     get_next_page base_url page limit total_records
     = Some (base_url ++ "?page=" ++ str_of_int (page + 1) ++ "&limit=1")).
Proof.
  intros base_url page limit total_records Hnext.
  unfold get_next_page in *.
  destruct (total_records - page * limit <=? 0); [contradiction |].
  repeat split; intros Hp; try intros Hl; rewrite Hp; try rewrite Hl; reflexivity.
Qed.

Lemma next_page_cases_witness :
  get_next_page "http://localhost:5002/users?limit=2" 1 2 5 <> None
  /\ get_next_page "http://localhost:5002/users?limit=2" 1 2 5
     = Some "http://localhost:5002/users?limit=2&page=2"
  /\ get_next_page "http://localhost:5002/users?page=1" 1 1 3
     = Some "http://localhost:5002/users?page=2".
Proof.
  assert (H1 : get_next_page "http://localhost:5002/users?limit=2" 1 2 5 <> None)
    by (vm_compute; discriminate).
  assert (H2 : get_next_page "http://localhost:5002/users?page=1" 1 1 3 <> None)
    by (vm_compute; discriminate).
  split; [exact H1 | split].
  - apply (proj1 (proj2 (next_page_cases _ 1 2 5 H1))); reflexivity.
  - apply (proj1 (next_page_cases _ 1 1 3 H2)); reflexivity.
Defined.

(** ** Total pages *)

Lemma round_half_even_window (a b P N : Z) :
  0 < b -> 0 < P -> b < 2 * P ->
  (N - 1) * b < a -> a <= N * b ->
  (N - 1) * P < PyFloat.round_half_even (a * P) b <= N * P.
Proof.
  intros Hb HP HbP Hlo Hhi.
  unfold PyFloat.round_half_even.
  pose proof (Z.div_mod (a * P) b ltac:(lia)) as Hdm.
  pose proof (Z.mod_pos_bound (a * P) b Hb) as Hr.
  set (q := a * P / b) in *. set (r := (a * P) mod b) in *.
  assert (Hq1 : (N - 1) * P <= q) by nia.
  assert (Hq2 : q <= N * P) by nia.
  destruct (Z.ltb_spec (2 * r) b) as [H1 | H1].
  - split; [| lia].
    assert (q <> (N - 1) * P) by nia. lia.
  - assert (Hq3 : q < N * P) by nia.
    destruct (Z.ltb_spec b (2 * r)) as [H2 | H2].
    + split; lia.
    + assert (q <> (N - 1) * P) by nia.
      destruct (Z.even q); split; lia.
Qed.

Lemma pow2_pos (n : Z) : 0 < 2 ^ n \/ n < 0.
Proof. destruct (Z.ltb_spec n 0); [right; lia | left; apply Z.pow_pos_nonneg; lia]. Qed.

Lemma pow2_split (n m : Z) : 0 <= n -> 0 <= m -> 2 ^ (n + m) = 2 ^ n * 2 ^ m.
Proof. intros. apply Z.pow_add_r; lia. Qed.

(** [log2_quot a b] never exceeds the logarithm of the quotient. *)
Lemma log2_quot_lower (a b : Z) :
  0 < a -> 0 < b ->
  b * 2 ^ Z.max 0 (PyFloat.log2_quot a b) <= a * 2 ^ Z.max 0 (- PyFloat.log2_quot a b).
Proof.
  intros Ha Hb. unfold PyFloat.log2_quot.
  destruct (Z.log2_spec a Ha) as [Ha1 _].
  destruct (Z.log2_spec b Hb) as [_ Hb2].
  pose proof (Z.log2_nonneg a) as Hla. pose proof (Z.log2_nonneg b) as Hlb.
  set (la := Z.log2 a) in *. set (lb := Z.log2 b) in *.
  destruct (Z.leb_spec (b * 2 ^ Z.max 0 (la - lb)) (a * 2 ^ Z.max 0 (- (la - lb))))
    as [Hle | Hgt]; [exact Hle |].
  destruct (Z.le_gt_cases 1 (la - lb)) as [Hd | Hd].
  - replace (Z.max 0 (la - lb - 1)) with (la - lb - 1) by lia.
    replace (Z.max 0 (- (la - lb - 1))) with 0 by lia.
    assert (Hs : 2 ^ la = 2 ^ (lb + 1) * 2 ^ (la - lb - 1)).
    { rewrite <- pow2_split by lia. f_equal; lia. }
    assert (0 < 2 ^ (la - lb - 1)) by (apply Z.pow_pos_nonneg; lia).
    nia.
  - replace (Z.max 0 (la - lb - 1)) with 0 by lia.
    replace (Z.max 0 (- (la - lb - 1))) with (lb + 1 - la) by lia.
    assert (Hs : 2 ^ (lb + 1) = 2 ^ la * 2 ^ (lb + 1 - la)).
    { rewrite <- pow2_split by lia. f_equal; lia. }
    assert (0 < 2 ^ (lb + 1 - la)) by (apply Z.pow_pos_nonneg; lia).
    nia.
Qed.

Lemma log2_quot_le (a b : Z) :
  0 < a -> 0 < b -> PyFloat.log2_quot a b <= Z.log2 a.
Proof.
  intros Ha Hb. unfold PyFloat.log2_quot.
  pose proof (Z.log2_nonneg b).
  destruct (_ <=? _); lia.
Qed.

(** Below [2 ^ 53] the divisor is smaller than two units of the last place
    of the scaled quotient. *)
Lemma divisor_below_two_ulp (a b : Z) :
  0 < a < 2 ^ 53 -> 0 < b < 2 ^ 1075 ->
  let e := Z.max (PyFloat.log2_quot a b - 52) (-1074) in
  e <= 0 /\ b < 2 * 2 ^ (- e).
Proof.
  intros [Ha Ha53] [Hb Hb1075] e.
  pose proof (log2_quot_lower a b Ha Hb) as Hlow.
  pose proof (log2_quot_le a b Ha Hb) as HE.
  assert (Hla : Z.log2 a < 53) by (apply Z.log2_lt_pow2; lia).
  set (E := PyFloat.log2_quot a b) in *.
  assert (He : e <= 0) by (unfold e; lia).
  split; [exact He |].
  destruct (Z.le_gt_cases (E - 52) (-1074)) as [Hc | Hc].
  - replace e with (-1074) by (unfold e; lia).
    change (- -1074) with 1074.
    replace (2 * 2 ^ 1074) with (2 ^ 1075) by (rewrite <- Z.pow_succ_r; [reflexivity | lia]).
    exact Hb1075.
  - replace e with (E - 52) by (unfold e; lia).
    replace (2 * 2 ^ (- (E - 52))) with (2 ^ (53 - E))
      by (rewrite <- Z.pow_succ_r by lia; f_equal; lia).
    destruct (Z.le_gt_cases 0 E) as [HE0 | HE0].
    + replace (Z.max 0 E) with E in Hlow by lia.
      replace (Z.max 0 (- E)) with 0 in Hlow by lia.
      assert (Hs : 2 ^ 53 = 2 ^ E * 2 ^ (53 - E)).
      { rewrite <- pow2_split by lia. f_equal; lia. }
      assert (0 < 2 ^ E) by (apply Z.pow_pos_nonneg; lia).
      assert (0 < 2 ^ (53 - E)) by (apply Z.pow_pos_nonneg; lia).
      remember (2 ^ 53) as T. nia.
    + replace (Z.max 0 E) with 0 in Hlow by lia.
      replace (Z.max 0 (- E)) with (- E) in Hlow by lia.
      assert (Hs : 2 ^ (53 - E) = 2 ^ 53 * 2 ^ (- E)).
      { rewrite <- pow2_split by lia. f_equal; lia. }
      assert (0 < 2 ^ (- E)) by (apply Z.pow_pos_nonneg; lia).
      remember (2 ^ 53) as T. rewrite Z.pow_0_r in Hlow. nia.
Qed.

Lemma ceil_div_window (a b : Z) :
  0 < b -> (ceil_div a b - 1) * b < a <= ceil_div a b * b.
Proof.
  intros Hb. unfold ceil_div.
  pose proof (Z.div_mod (- a) b ltac:(lia)) as Hdm.
  pose proof (Z.mod_pos_bound (- a) b Hb) as Hr.
  nia.
Qed.

Lemma ceil_of_window (m P N : Z) :
  0 < P -> (N - 1) * P < m <= N * P -> - ((- m) / P) = N.
Proof.
  intros HP [Hlo Hhi].
  pose proof (Z.div_mod (- m) P ltac:(lia)) as Hdm.
  pose proof (Z.mod_pos_bound (- m) P HP) as Hr.
  nia.
Qed.

(** Within the range where every count is an exact binary64 value the
    float computation agrees with the exact ceiling. *)
Lemma get_total_pages_exact (limit total_records : Z) :
  0 < limit < 2 ^ 1075 ->
  0 <= total_records < 2 ^ 53 ->
  get_total_pages limit total_records = Return (ceil_div total_records limit).
Proof.
  intros Hl Ht.
  unfold get_total_pages, PyFloat.truediv.
  destruct (Z.eqb_spec limit 0) as [H0 | _]; [lia |].
  destruct (Z.eqb_spec total_records 0) as [-> | Hne].
  - cbn [bind]. unfold PyFloat.ceil, ceil_div. cbn [fmant fexp].
    rewrite Z.div_0_l by lia. reflexivity.
  - assert (Ha : 0 < total_records < 2 ^ 53) by lia.
    rewrite (Z.abs_eq total_records) by lia.
    rewrite (Z.abs_eq limit) by lia.
    destruct (divisor_below_two_ulp total_records limit Ha Hl) as [He Hulp].
    set (e := Z.max (PyFloat.log2_quot total_records limit - 52) (-1074)) in *.
    replace (Z.max 0 e) with 0 by lia.
    replace (Z.max 0 (- e)) with (- e) by lia.
    rewrite Z.pow_0_r, !Z.mul_1_r.
    assert (HP : 0 < 2 ^ (- e)) by (apply Z.pow_pos_nonneg; lia).
    pose proof (ceil_div_window total_records limit ltac:(lia)) as [Hlo Hhi].
    pose proof (round_half_even_window total_records limit (2 ^ (- e))
                  (ceil_div total_records limit) ltac:(lia) HP Hulp Hlo Hhi) as Hm.
    set (m := PyFloat.round_half_even (total_records * 2 ^ (- e)) limit) in *.
    set (N := ceil_div total_records limit) in *.
    assert (HN : N <= total_records) by nia.
    assert (H53 : 2 ^ 53 < 2 ^ 1024) by (apply Z.pow_lt_mono_r; lia).
    destruct (Z.leb_spec (2 ^ 1024 * 2 ^ (- e)) m) as [Hov | _].
    + exfalso. remember (2 ^ 1024) as B. remember (2 ^ 53) as T. nia.
    + cbn [bind]. unfold PyFloat.ceil. cbn [fmant fexp].
      replace (Z.sgn total_records) with 1 by (symmetry; apply Z.sgn_pos; lia).
      replace (Z.sgn limit) with 1 by (symmetry; apply Z.sgn_pos; lia).
      replace (Z.max 0 e) with 0 by lia.
      replace (Z.max 0 (- e)) with (- e) by lia.
      rewrite Z.pow_0_r, !Z.mul_1_r, !Z.mul_1_l.
      f_equal. apply ceil_of_window; [exact HP | exact Hm].
Qed.

(** The model of [/] agrees with the library's IEEE 754 division on a grid
    of small operands and on operands around the binary64 limits. *)
Lemma truediv_agrees_with_ieee :
  forallb (fun a => forallb (fun b => agrees_with_ieee a b)
                      (map Pos.of_nat (seq 1 40)))
          (map Pos.of_nat (seq 1 40)) = true
  /\ forallb (fun ab => agrees_with_ieee (fst ab) (snd ab))
       [(2 ^ 53 + 1, 1); (2 ^ 53 + 3, 1); (3 * 2 ^ 52 + 1, 3); (2 ^ 54 + 1, 2 ^ 54);
        (1, 2 ^ 1075); (3, 2 ^ 1075); (1, 2 ^ 1074); (2 ^ 1024, 1);
        (2 ^ 1024 - 1, 1); (2 ^ 1024 - 2 ^ 970 - 1, 1); (2 ^ 60 + 7, 3);
        (1, 3); (2 ^ 200 + 1, 2 ^ 100 - 1)]%positive = true.
Proof. split; vm_compute; reflexivity. Qed.

Lemma get_total_pages_examples :
  get_total_pages 2 5 = Return 3
  /\ get_total_pages 2 1 = Return 1
  /\ get_total_pages 2 4 = Return 2
  /\ get_total_pages 1 0 = Return 0.
Proof. repeat split; vm_compute; reflexivity. Qed.

(** C1, as first stated: for every [limit > 0] and [total_records >= 0]
    the page count would be the exact ceiling.  The quotient is a binary64
    float, so a count that is not representable is rounded first:
    [2 ^ 53 + 1] records with limit 1 give [2 ^ 53] pages. *)
Lemma total_pages_rounds_large_counts :
  get_total_pages 1 (2 ^ 53 + 1) = Return (2 ^ 53)
  /\ get_total_pages 1 (2 ^ 53 + 1) <> Return (ceil_div (2 ^ 53 + 1) 1).
Proof. split; [vm_compute; reflexivity | vm_compute; discriminate]. Qed.

(** C1, amended.  For every [limit] with [0 < limit < 2 ^ 1075] and every
    [total_records] with [0 <= total_records < 2 ^ 53], [total_pages] is
    returned and equals [ceil (total_records / limit)]. *)
Theorem total_pages_is_ceiling :
  forall limit total_records : Z,
    0 < limit -> limit < 2 ^ 1075 ->
    0 <= total_records -> total_records < 2 ^ 53 ->
    get_total_pages limit total_records = Return (ceil_div total_records limit).
Proof.
  intros limit total_records H1 H2 H3 H4.
  apply get_total_pages_exact; split; assumption.
Qed.

Lemma total_pages_is_ceiling_witness :
  get_total_pages 2 5 = Return (ceil_div 5 2) /\ ceil_div 5 2 = 3.
Proof.
  split; [| reflexivity].
  apply (total_pages_is_ceiling 2 5); [lia | | lia |]; reflexivity.
Defined.

(** ** Error bodies *)

Lemma three_digit_status_starts_with_4 (n : Z) :
  100 <= n <= 599 ->
  startswith "4" (str_of_int n) = (400 <=? n) && (n <=? 499).
Proof.
  intros Hn.
  assert (Hall : forallb
            (fun k => Bool.eqb (startswith "4" (str_of_int (100 + Z.of_nat k)))
                               ((400 <=? 100 + Z.of_nat k) && (100 + Z.of_nat k <=? 499)))
            (seq 0 500) = true) by (vm_compute; reflexivity).
  rewrite forallb_forall in Hall.
  specialize (Hall (Z.to_nat (n - 100))).
  replace (100 + Z.of_nat (Z.to_nat (n - 100))) with n in Hall by lia.
  apply Bool.eqb_prop, Hall, in_seq. lia.
Qed.

Lemma is_operational_unfold (status_code : option Z) :
  ServerErrorAttrs.is_operational status_code = startswith "4" (str_of_status status_code).
Proof. unfold ServerErrorAttrs.is_operational. now destruct (startswith _ _). Qed.

Lemma server_error_status_and_flag (status_code : option Z) :
  100 <= ServerErrorAttrs.status_code status_code <= 599 ->
  ServerErrorAttrs.is_operational status_code
  = (400 <=? ServerErrorAttrs.status_code status_code)
    && (ServerErrorAttrs.status_code status_code <=? 499).
Proof.
  rewrite is_operational_unfold.
  destruct status_code as [n |]; [| intros _; reflexivity].
  unfold ServerErrorAttrs.status_code, str_of_status.
  destruct (Z.eqb_spec n 0) as [-> | Hn]; [intros _; reflexivity |].
  apply three_digit_status_starts_with_4.
Qed.

(** C7. A [ServerError] is operational exactly when the decimal text of
    the status code it was built with starts with [4]; and every error
    response the handlers produce with an HTTP status between 100 and 599
    has [isOperational] true exactly when that status is a 4xx code, hence
    false for a 5xx code. *)
Theorem is_operational_iff_4xx :
  (forall status_code : option Z,
      ServerErrorAttrs.is_operational status_code = true
      <-> startswith "4" (str_of_status status_code) = true)
  /\
  (forall (R : Runtime) (failure : request_failure) (response : JSONResponse),
      exception_handlers failure = Return response ->
      100 <= response_status_code response <= 599 ->
      (body_is_operational response = true
       <-> 400 <= response_status_code response <= 499)).
Proof.
  split.
  - intros status_code. now rewrite is_operational_unfold.
  - intros R failure response Hresp Hrange.
    destruct failure as [body errors | [message status_code [d |] | cls text dc]];
      cbn in Hresp; try discriminate.
    + injection Hresp as <-. cbn. split; [intros _; unfold HTTP_422_UNPROCESSABLE_ENTITY; lia | reflexivity].
    + destruct (holds_datetime (context d)); [discriminate |].
      injection Hresp as <-. cbn in *.
      rewrite server_error_status_and_flag by exact Hrange.
      rewrite andb_true_iff, !Z.leb_le. reflexivity.
Qed.

Lemma is_operational_iff_4xx_witness :
  (body_is_operational
     {| body_message := "User could not be read";
        body_detail := Some {| context := CtxStr "x"; cause := CNone |};
        body_is_operational := true;
        response_status_code := 404 |} = true
   <-> 400 <= 404 <= 499)
  /\ ServerErrorAttrs.is_operational (Some 500) = false.
Proof.
  split; [| reflexivity].
  apply (proj2 is_operational_iff_4xx SampleRuntime.runtime
           (Unhandled (ServerError "User could not be read" (Some HTTP_404_NOT_FOUND)
                         (Some {| context := CtxStr "x"; cause := CNone |}))));
    [reflexivity | cbn; lia].
Defined.

(** ** The mapper *)

Section Mapper.
Context {R : Runtime}.

Lemma to_domain_dict (items : list (string * pyval)) :
  UserMapper.to_domain (PyDict items)
  = Raise (PyError "AttributeError" "'dict' object has no attribute 'name'" None).
Proof. reflexivity. Qed.

Lemma to_domain_persistence (u : User) :
  UserMapper.to_domain (DictToObj (UserMapper.to_persistence u))
  = Return {| id := None; name := name u; email := email u;
              created_at := None; updated_at := None |}.
Proof. reflexivity. Qed.

Lemma to_domain_request (req : UserRequest) :
  UserMapper.to_domain (obj_of_request req)
  = Return {| id := None; name := req_name req; email := req_email req;
              created_at := None; updated_at := None |}.
Proof. reflexivity. Qed.

Lemma to_domain_row (row : Row) :
  UserMapper.to_domain (DictToObj (asdict row))
  = Return {| id := Some (hex (row_id row));
              name := row_name row; email := row_email row;
              created_at := Some (row_created_at row);
              updated_at := row_updated_at row |}.
Proof. destruct row as [i n e c [u |]]; reflexivity. Qed.


Lemma astimezone_returns_iff (d : datetime) :
  (exists d', astimezone d = Return d') <-> local_utcoffset d <> None.
Proof.
  unfold astimezone. destruct (local_utcoffset d) as [local |]; split.
  - intros _. discriminate.
  - intros _. eexists. reflexivity.
  - intros [d' Hd']. discriminate.
  - intros H. now contradiction H.
Qed.






End Mapper.

(** C8, as first stated: [to_domain(to_persistence(u))] would return a
    user with the same name and email.  [to_persistence] returns a [dict]
    and [to_domain] reads attributes, so the direct composition raises
    [AttributeError]. *)
Lemma to_domain_rejects_dict :
  ~ (forall (R : Runtime) (u : User),
        exists u', UserMapper.to_domain (PyDict (UserMapper.to_persistence u)) = Return u'
                   /\ name u' = name u /\ email u' = email u).
Proof.
  intros H.
  destruct (H SampleRuntime.runtime
              {| id := None; name := "alice"; email := "a@x.com";
                 created_at := None; updated_at := None |}) as [u' [Hu _]].
  rewrite to_domain_dict in Hu. discriminate.
Qed.

(** C8, amended.  For every domain user [u], wrapping the persistence
    dictionary with [DictToObj] before converting back,
    [to_domain(DictToObj(to_persistence(u)))], returns a user with the name
    and email of [u] and with no identifier and no timestamps. *)
Theorem persistence_round_trip :
  forall (R : Runtime) (u : User),
    exists u',
      UserMapper.to_domain (DictToObj (UserMapper.to_persistence u)) = Return u'
      /\ name u' = name u /\ email u' = email u
      /\ id u' = None /\ created_at u' = None /\ updated_at u' = None.
Proof.
  intros R u. eexists. split; [apply to_domain_persistence |].
  repeat split.
Qed.




(** ** The repository *)

Section Repository.
Context {R : Runtime}.
Variables (db_service : DBService) (engine : AsyncEngine) (conn : AsyncConnection).
Hypothesis Hengine : private_async_engine db_service = Some engine.
Hypothesis Hconn : connect engine = Return conn.

Ltac enter :=
  unfold UserRepository.read_user, UserRepository.update_user,
    UserRepository.delete_user, async_engine;
  rewrite Hengine; cbn [bind]; rewrite Hconn; cbn [bind].

(** The body of a fetch by identifier once the statement has run. *)
Lemma fetched_row (res : CursorResult) :
  rowcount res <> 0 ->
  forall out : result (option User),
    out = (obj <- UserRepository.first_obj res ;;
           commit conn ;;;
           u <- UserMapper.to_domain obj ;;
           Return (Some u)) ->
    (exists u, out = Return (Some u))
    \/ ((first res = None \/ exists e, commit conn = Raise e) /\ exists e, out = Raise e).
Proof.
  intros _ out ->. unfold UserRepository.first_obj.
  destruct (first res) as [row |]; cbn [bind].
  - destruct (commit conn) as [[] | e]; cbn [bind].
    + rewrite to_domain_row. cbn [bind]. left. eexists. reflexivity.
    + right. split; [right |]; eexists; reflexivity.
  - right. split; [left; reflexivity | eexists; reflexivity].
Qed.

Lemma handler_raises (message : string) (ctx : context_t) (err : exn) :
  exists e, @UserRepository.on_error (option User) conn message ctx err = Raise e.
Proof.
  unfold UserRepository.on_error. destruct (rollback conn); cbn [bind]; eexists; reflexivity.
Qed.

(** The shape shared by the three fetches, for a parsed identifier. *)
Lemma fetch_outcome (stmt : statement) (message : string) (ctx : context_t) :
  let out :=
    try_except
      (res <- execute conn stmt ;;
       if rowcount res =? 0 then Return None
       else
         obj <- UserRepository.first_obj res ;;
         commit conn ;;;
         u <- UserMapper.to_domain obj ;;
         Return (Some u))
      (UserRepository.on_error conn message ctx) in
  (forall res, execute conn stmt = Return res -> rowcount res = 0 -> out = Return None)
  /\ (forall e, out = Raise e -> operation_failed conn stmt).
Proof.
  cbv zeta. split.
  - intros res Hex H0. rewrite Hex. cbn [bind]. rewrite H0. reflexivity.
  - intros e He. unfold operation_failed.
    destruct (execute conn stmt) as [res | e0] eqn:Hex; [| left; eexists; reflexivity].
    right. exists res. cbn [bind] in He.
    destruct (Z.eqb_spec (rowcount res) 0) as [H0 | Hn0]; [discriminate |].
    split; [reflexivity | split; [exact Hn0 |]].
    destruct (fetched_row res Hn0 _ eq_refl) as [[u Hu] | [Hwhy _]].
    + rewrite Hu in He. discriminate.
    + exact Hwhy.
Qed.

Lemma read_user_parsed (user_id : string) (uid : UUID) :
  uuid_of_string user_id = Some uid ->
  (forall res, execute conn (SelectUser uid) = Return res -> rowcount res = 0 ->
               UserRepository.read_user db_service user_id = Return None)
  /\ (forall e, UserRepository.read_user db_service user_id = Raise e ->
                operation_failed conn (SelectUser uid)).
Proof.
  intros Hid. enter. unfold UserRepository.UUID_init. rewrite Hid. cbn [bind].
  apply fetch_outcome.
Qed.

Lemma update_user_parsed (user_id : string) (user : User) (uid : UUID) :
  uuid_of_string user_id = Some uid ->
  (forall res, execute conn (UpdateUser uid (name user) (email user)) = Return res ->
               rowcount res = 0 ->
               UserRepository.update_user db_service user_id user = Return None)
  /\ (forall e, UserRepository.update_user db_service user_id user = Raise e ->
                operation_failed conn (UpdateUser uid (name user) (email user))).
Proof.
  intros Hid. enter. unfold UserRepository.UUID_init. rewrite Hid. cbn [bind].
  apply fetch_outcome.
Qed.

Lemma delete_user_parsed (user_id : string) (uid : UUID) :
  uuid_of_string user_id = Some uid ->
  (forall res, execute conn (DeleteUser uid) = Return res -> rowcount res = 0 ->
               UserRepository.delete_user db_service user_id = Return None)
  /\ (forall e, UserRepository.delete_user db_service user_id = Raise e ->
                operation_failed conn (DeleteUser uid)).
Proof.
  intros Hid. enter. unfold UserRepository.UUID_init. rewrite Hid. cbn [bind].
  apply fetch_outcome.
Qed.

End Repository.

(** C6. For every [user_id] that parses as an identifier, on an acquired
    connection: when the statement of [read_user], [update_user] or
    [delete_user] reports zero affected rows the operation returns [None]
    and does not raise; and when one of them raises, the underlying
    operation itself failed (the statement raised, or rows were affected
    and reading the row or committing failed). *)
Theorem zero_rows_is_absence :
  forall (R : Runtime) (db_service : DBService) (engine : AsyncEngine)
         (conn : AsyncConnection) (user_id : string) (user : User) (uid : UUID),
    private_async_engine db_service = Some engine ->
    connect engine = Return conn ->
    uuid_of_string user_id = Some uid ->
    ((forall res, execute conn (SelectUser uid) = Return res -> rowcount res = 0 ->
                  UserRepository.read_user db_service user_id = Return None)
     /\ (forall e, UserRepository.read_user db_service user_id = Raise e ->
                   operation_failed conn (SelectUser uid)))
    /\
    ((forall res, execute conn (UpdateUser uid (name user) (email user)) = Return res ->
                  rowcount res = 0 ->
                  UserRepository.update_user db_service user_id user = Return None)
     /\ (forall e, UserRepository.update_user db_service user_id user = Raise e ->
                   operation_failed conn (UpdateUser uid (name user) (email user))))
    /\
    ((forall res, execute conn (DeleteUser uid) = Return res -> rowcount res = 0 ->
                  UserRepository.delete_user db_service user_id = Return None)
     /\ (forall e, UserRepository.delete_user db_service user_id = Raise e ->
                   operation_failed conn (DeleteUser uid))).
Proof.
  intros R db_service engine conn user_id user uid Hengine Hconn Hid.
  split; [| split].
  - exact (read_user_parsed db_service engine conn Hengine Hconn user_id uid Hid).
  - exact (update_user_parsed db_service engine conn Hengine Hconn user_id user uid Hid).
  - exact (delete_user_parsed db_service engine conn Hengine Hconn user_id uid Hid).
Qed.

Lemma zero_rows_is_absence_witness :
  @UserRepository.read_user SampleRuntime.runtime SampleRuntime.db_no_rows
     "01234567-89ab-cdef-0123-456789abcdef" = Return None.
Proof.
  apply (proj1 (proj1 (zero_rows_is_absence SampleRuntime.runtime SampleRuntime.db_no_rows
                         {| connect := Return SampleRuntime.conn_no_rows |}
                         SampleRuntime.conn_no_rows
                         "01234567-89ab-cdef-0123-456789abcdef"
                         {| id := None; name := "alice"; email := "a@x.com";
                            created_at := None; updated_at := None |}
                         {| hex := "0123456789abcdef0123456789abcdef" |}
                         eq_refl eq_refl eq_refl))
           {| rowcount := 0; first := None |});
    reflexivity.
Defined.

(** ** Malformed identifiers *)

Section Malformed.
Context {R : Runtime}.
Variables (db_service : DBService) (user_id : string).
Hypothesis Hid : uuid_of_string user_id = None.

Ltac open_call :=
  unfold UserRepository.read_user, UserRepository.update_user,
    UserRepository.delete_user, async_engine, UserRepository.UUID_init;
  rewrite Hid.

Lemma read_user_malformed_raises :
  exists e, UserRepository.read_user db_service user_id = Raise e.
Proof.
  open_call.
  destruct (private_async_engine db_service) as [engine |]; cbn [bind];
    [| eexists; reflexivity].
  destruct (connect engine) as [conn | e]; cbn [bind try_except];
    [| eexists; reflexivity].
  apply handler_raises.
Qed.

Lemma update_user_malformed_raises (user : User) :
  exists e, UserRepository.update_user db_service user_id user = Raise e.
Proof.
  open_call.
  destruct (private_async_engine db_service) as [engine |]; cbn [bind];
    [| eexists; reflexivity].
  destruct (connect engine) as [conn | e]; cbn [bind try_except];
    [| eexists; reflexivity].
  apply handler_raises.
Qed.

Lemma delete_user_malformed_raises :
  exists e, UserRepository.delete_user db_service user_id = Raise e.
Proof.
  open_call.
  destruct (private_async_engine db_service) as [engine |]; cbn [bind];
    [| eexists; reflexivity].
  destruct (connect engine) as [conn | e]; cbn [bind try_except];
    [| eexists; reflexivity].
  apply handler_raises.
Qed.

Variables (engine : AsyncEngine) (conn : AsyncConnection).
Hypothesis Hengine : private_async_engine db_service = Some engine.
Hypothesis Hconn : connect engine = Return conn.
Hypothesis Hrollback : rollback conn = Return tt.

Lemma read_user_malformed :
  UserRepository.read_user db_service user_id
  = Raise (ServerError "An error occurred when reading a user from database"
             (Some 500)
             (Some {| context := CtxStr user_id; cause := CStr "None" |})).
Proof.
  open_call. rewrite Hengine. cbn [bind]. rewrite Hconn.
  cbn [bind try_except]. unfold UserRepository.on_error. rewrite Hrollback.
  reflexivity.
Qed.

Lemma update_user_malformed (user : User) :
  UserRepository.update_user db_service user_id user
  = Raise (ServerError "An error occurred when updating a user from database"
             (Some 500)
             (Some {| context := CtxUserUpdate user_id user; cause := CStr "None" |})).
Proof.
  open_call. rewrite Hengine. cbn [bind]. rewrite Hconn.
  cbn [bind try_except]. unfold UserRepository.on_error. rewrite Hrollback.
  reflexivity.
Qed.

Lemma delete_user_malformed :
  UserRepository.delete_user db_service user_id
  = Raise (ServerError "An error occurred when deleting a user from database"
             (Some 500)
             (Some {| context := CtxStr user_id; cause := CStr "None" |})).
Proof.
  open_call. rewrite Hengine. cbn [bind]. rewrite Hconn.
  cbn [bind try_except]. unfold UserRepository.on_error. rewrite Hrollback.
  reflexivity.
Qed.

End Malformed.

(** ** The service *)

Section Service.
Variable repo : IUserRepository.

(** A fault whose cause the service can read: any exception other than
    a [ServerError] built without a [Detail]. *)
Lemma cause_of_error_readable (err : exn) :
  (forall message status_code, err <> ServerError message status_code None) ->
  exists c, UserService.cause_of_error err = Return c.
Proof.
  intros Hd. destruct err as [m sc [d |] | cls text dc]; cbn.
  - eexists. reflexivity.
  - now destruct (Hd m sc).
  - eexists. reflexivity.
Qed.

Lemma retrieve_user_fault (user_id : string) (err : exn) (c : string) :
  read_user repo user_id = Raise err ->
  UserService.cause_of_error err = Return c ->
  UserService.retrieve_user repo user_id
  = Raise (ServerError "An error occurred when reading a user" (Some 500)
             (Some {| context := CtxStr user_id; cause := CStr c |})).
Proof.
  intros Hr Hc. unfold UserService.retrieve_user, UserService.on_error.
  rewrite Hr. cbn [try_except]. rewrite Hc. reflexivity.
Qed.

Lemma replace_user_fault (user_id : string) (user : User) (err : exn) (c : string) :
  update_user repo user_id user = Raise err ->
  UserService.cause_of_error err = Return c ->
  UserService.replace_user repo user_id user
  = Raise (ServerError "An error occurred when updating a user" (Some 500)
             (Some {| context := CtxUserUpdate user_id user; cause := CStr c |})).
Proof.
  intros Hr Hc. unfold UserService.replace_user, UserService.on_error.
  rewrite Hr. cbn [try_except]. rewrite Hc. reflexivity.
Qed.

Lemma remove_user_fault (user_id : string) (err : exn) (c : string) :
  delete_user repo user_id = Raise err ->
  UserService.cause_of_error err = Return c ->
  UserService.remove_user repo user_id
  = Raise (ServerError "An error occurred when deleting a user" (Some 500)
             (Some {| context := CtxStr user_id; cause := CStr c |})).
Proof.
  intros Hr Hc. unfold UserService.remove_user, UserService.on_error.
  rewrite Hr. cbn [try_except]. rewrite Hc. reflexivity.
Qed.

(** Absence: not-found for the fetches, internal error after a create. *)
Lemma service_absence (user_id : string) (user : User) :
  (read_user repo user_id = Return None ->
   UserService.retrieve_user repo user_id
   = Raise (ServerError "User could not be read" (Some 404)
              (Some {| context := CtxStr user_id; cause := CNone |})))
  /\
  (update_user repo user_id user = Return None ->
   UserService.replace_user repo user_id user
   = Raise (ServerError "User could not be updated" (Some 404)
              (Some {| context := CtxUserUpdate user_id user; cause := CNone |})))
  /\
  (delete_user repo user_id = Return None ->
   UserService.remove_user repo user_id
   = Raise (ServerError "User could not be removed" (Some 404)
              (Some {| context := CtxStr user_id; cause := CNone |})))
  /\
  (create_user repo user = Return None ->
   UserService.register_user repo user
   = Raise (ServerError "User could not be created" (Some 500)
              (Some {| context := CtxUser user; cause := CNone |}))).
Proof.
  unfold UserService.retrieve_user, UserService.replace_user,
    UserService.remove_user, UserService.register_user.
  repeat split; intros ->; reflexivity.
Qed.

(** A fault never turns into a not-found. *)
Lemma retrieve_user_fault_not_404 (user_id : string) (err : exn)
    (message : string) (detail : option Detail) :
  read_user repo user_id = Raise err ->
  UserService.retrieve_user repo user_id <> Raise (ServerError message (Some 404) detail).
Proof.
  intros Hr. unfold UserService.retrieve_user, UserService.on_error.
  rewrite Hr. cbn [try_except].
  destruct (UserService.cause_of_error err) as [c | e] eqn:Hc; cbn [bind].
  - discriminate.
  - destruct err as [m sc [d |] | cls text dc]; cbn in Hc; try discriminate.
    injection Hc as <-. discriminate.
Qed.

End Service.

(** C5. The service over a database service whose engine is not set
    ([connect_database] not called, or [disconnect_database] called): the
    repository raises the [ServerError] of [DBService.async_engine], which
    carries no [Detail]; reading [err.detail.cause] then fails, and
    [retrieve_user], [replace_user] and [remove_user] raise
    [AttributeError] instead of an internal error with status 500. *)
Theorem service_fault_without_detail :
  forall (R : Runtime) (user_id : string) (user : User),
    let repo := UserRepository.make SampleRuntime.db_disconnected in
    read_user repo user_id
    = Raise (ServerError "Async engine is None!" (Some 500) None)
    /\ UserService.retrieve_user repo user_id
       = Raise (PyError "AttributeError" "'str' object has no attribute 'cause'" None)
    /\ UserService.replace_user repo user_id user
       = Raise (PyError "AttributeError" "'str' object has no attribute 'cause'" None)
    /\ UserService.remove_user repo user_id
       = Raise (PyError "AttributeError" "'str' object has no attribute 'cause'" None).
Proof. intros R user_id user. cbv zeta. repeat split. Qed.

(** The part of C5 that holds: every fault other than a [ServerError]
    without [Detail] becomes an internal error (500) carrying the cause,
    [None] from a fetch becomes a not-found (404), and [None] after a
    create becomes an internal error (500). *)
Lemma service_classification (repo : IUserRepository) (user_id : string) (user : User) :
  (forall err, read_user repo user_id = Raise err ->
     (forall message status_code, err <> ServerError message status_code None) ->
     exists c, UserService.cause_of_error err = Return c
       /\ UserService.retrieve_user repo user_id
          = Raise (ServerError "An error occurred when reading a user" (Some 500)
                     (Some {| context := CtxStr user_id; cause := CStr c |})))
  /\
  (forall err, update_user repo user_id user = Raise err ->
     (forall message status_code, err <> ServerError message status_code None) ->
     exists c, UserService.cause_of_error err = Return c
       /\ UserService.replace_user repo user_id user
          = Raise (ServerError "An error occurred when updating a user" (Some 500)
                     (Some {| context := CtxUserUpdate user_id user; cause := CStr c |})))
  /\
  (forall err, delete_user repo user_id = Raise err ->
     (forall message status_code, err <> ServerError message status_code None) ->
     exists c, UserService.cause_of_error err = Return c
       /\ UserService.remove_user repo user_id
          = Raise (ServerError "An error occurred when deleting a user" (Some 500)
                     (Some {| context := CtxStr user_id; cause := CStr c |})))
  /\
  (read_user repo user_id = Return None ->
   exists d, UserService.retrieve_user repo user_id
             = Raise (ServerError "User could not be read" (Some 404) d))
  /\
  (update_user repo user_id user = Return None ->
   exists d, UserService.replace_user repo user_id user
             = Raise (ServerError "User could not be updated" (Some 404) d))
  /\
  (delete_user repo user_id = Return None ->
   exists d, UserService.remove_user repo user_id
             = Raise (ServerError "User could not be removed" (Some 404) d))
  /\
  (create_user repo user = Return None ->
   exists d, UserService.register_user repo user
             = Raise (ServerError "User could not be created" (Some 500) d)).
Proof.
  destruct (service_absence repo user_id user) as (A1 & A2 & A3 & A4).
  repeat split.
  - intros err Hr Hd. destruct (cause_of_error_readable err Hd) as [c Hc].
    exists c. split; [exact Hc | now apply (retrieve_user_fault repo user_id err)].
  - intros err Hr Hd. destruct (cause_of_error_readable err Hd) as [c Hc].
    exists c. split; [exact Hc | now apply (replace_user_fault repo user_id user err)].
  - intros err Hr Hd. destruct (cause_of_error_readable err Hd) as [c Hc].
    exists c. split; [exact Hc | now apply (remove_user_fault repo user_id err)].
  - intros H. eexists. now apply A1.
  - intros H. eexists. now apply A2.
  - intros H. eexists. now apply A3.
  - intros H. eexists. now apply A4.
Qed.

(** C10. For every [user_id] that [UUID] rejects, [read_user],
    [update_user] and [delete_user] never return the absence value; on an
    acquired connection whose rollback succeeds each raises the wrapped
    internal error with status 500, and [retrieve_user], [replace_user] and
    [remove_user] raise an internal error with status 500; in no case does
    [retrieve_user] raise a not-found (404). *)
Theorem malformed_id_is_internal_error :
  forall (R : Runtime) (db_service : DBService) (user_id : string) (user : User),
    uuid_of_string user_id = None ->
    let repo := UserRepository.make db_service in
    (read_user repo user_id <> Return None
     /\ update_user repo user_id user <> Return None
     /\ delete_user repo user_id <> Return None)
    /\
    (forall message detail,
        UserService.retrieve_user repo user_id
        <> Raise (ServerError message (Some 404) detail))
    /\
    (forall (engine : AsyncEngine) (conn : AsyncConnection),
        private_async_engine db_service = Some engine ->
        connect engine = Return conn ->
        rollback conn = Return tt ->
        (read_user repo user_id
         = Raise (ServerError "An error occurred when reading a user from database"
                    (Some 500)
                    (Some {| context := CtxStr user_id; cause := CStr "None" |}))
         /\ update_user repo user_id user
            = Raise (ServerError "An error occurred when updating a user from database"
                       (Some 500)
                       (Some {| context := CtxUserUpdate user_id user;
                                cause := CStr "None" |}))
         /\ delete_user repo user_id
            = Raise (ServerError "An error occurred when deleting a user from database"
                       (Some 500)
                       (Some {| context := CtxStr user_id; cause := CStr "None" |})))
        /\
        (UserService.retrieve_user repo user_id
         = Raise (ServerError "An error occurred when reading a user" (Some 500)
                    (Some {| context := CtxStr user_id; cause := CStr "None" |}))
         /\ UserService.replace_user repo user_id user
            = Raise (ServerError "An error occurred when updating a user" (Some 500)
                       (Some {| context := CtxUserUpdate user_id user;
                                cause := CStr "None" |}))
         /\ UserService.remove_user repo user_id
            = Raise (ServerError "An error occurred when deleting a user" (Some 500)
                       (Some {| context := CtxStr user_id; cause := CStr "None" |})))).
Proof.
  intros R db_service user_id user Hid. cbv zeta.
  change (read_user (UserRepository.make db_service) user_id)
    with (UserRepository.read_user db_service user_id).
  change (update_user (UserRepository.make db_service) user_id user)
    with (UserRepository.update_user db_service user_id user).
  change (delete_user (UserRepository.make db_service) user_id)
    with (UserRepository.delete_user db_service user_id).
  split; [| split].
  - destruct (read_user_malformed_raises db_service user_id Hid) as [e1 ->].
    destruct (update_user_malformed_raises db_service user_id Hid user) as [e2 ->].
    destruct (delete_user_malformed_raises db_service user_id Hid) as [e3 ->].
    repeat split; discriminate.
  - intros message detail.
    destruct (read_user_malformed_raises db_service user_id Hid) as [e1 He1].
    apply (retrieve_user_fault_not_404 (UserRepository.make db_service) user_id e1).
    exact He1.
  - intros engine conn Hengine Hconn Hrollback.
    pose proof (read_user_malformed db_service user_id Hid engine conn
                  Hengine Hconn Hrollback) as H1.
    pose proof (update_user_malformed db_service user_id Hid engine conn
                  Hengine Hconn Hrollback user) as H2.
    pose proof (delete_user_malformed db_service user_id Hid engine conn
                  Hengine Hconn Hrollback) as H3.
    split; [repeat split; assumption |].
    repeat split.
    + apply (retrieve_user_fault (UserRepository.make db_service) user_id _ "None" H1).
      reflexivity.
    + apply (replace_user_fault (UserRepository.make db_service) user_id user _ "None" H2).
      reflexivity.
    + apply (remove_user_fault (UserRepository.make db_service) user_id _ "None" H3).
      reflexivity.
Qed.

Lemma malformed_id_is_internal_error_witness :
  @uuid_of_string SampleRuntime.runtime "not-a-uuid" = None
  /\ UserService.retrieve_user
       (@UserRepository.make SampleRuntime.runtime SampleRuntime.db_no_rows) "not-a-uuid"
     = Raise (ServerError "An error occurred when reading a user" (Some 500)
                (Some {| context := CtxStr "not-a-uuid"; cause := CStr "None" |})).
Proof.
  split; [reflexivity |].
  exact (proj1 (proj2 (proj2 (proj2
           (malformed_id_is_internal_error SampleRuntime.runtime SampleRuntime.db_no_rows
              "not-a-uuid"
              {| id := None; name := "alice"; email := "a@x.com";
                 created_at := None; updated_at := None |}
              eq_refl))
           {| connect := Return SampleRuntime.conn_no_rows |}
           SampleRuntime.conn_no_rows eq_refl eq_refl eq_refl))).
Defined.

(** * Further properties of the code *)

(** ** Pagination responses *)

Lemma next_none_iff (base_url : string) (page limit total_records : Z) :
  get_next_page base_url page limit total_records = None
  <-> total_records - page * limit <= 0.
Proof.
  unfold get_next_page.
  destruct (Z.leb_spec (total_records - page * limit) 0) as [Hl | Hl].
  - split; auto.
  - split; [| lia].
    destruct (contains "page" base_url); [discriminate |].
    destruct (contains "limit" base_url); discriminate.
Qed.

Lemma previous_none_iff (base_url : string) (page limit total_records : Z) :
  get_previous_page base_url page limit total_records = None
  <-> (page = 1 \/ total_records - (page - 1) * limit <= 0).
Proof.
  unfold get_previous_page.
  destruct (Z.eqb_spec page 1) as [Hp | Hp]; [split; auto |].
  destruct (Z.leb_spec (total_records - (page - 1) * limit) 0) as [Hl | Hl].
  - split; auto.
  - split; [discriminate | intros [H | H]; [contradiction | lia]].
Qed.

(** Within the exact range, [create_response] returns, echoes the request
    fields and reports a page count whose pages cover all records with a
    non-empty last page; there are no pages exactly when there are no
    records. *)
Theorem create_response_pages_cover_records :
  forall (T : Type) (base_url : string) (d : APIPaginationData T),
    0 < data_limit d -> data_limit d < 2 ^ 1075 ->
    0 <= data_total_records d -> data_total_records d < 2 ^ 53 ->
    exists r,
      create_response base_url d = Return r
      /\ pg_page r = data_page d /\ pg_limit r = data_limit d
      /\ pg_total_records r = data_total_records d
      /\ pg_records r = data_records d
      /\ (pg_total_pages r - 1) * data_limit d < data_total_records d
      /\ data_total_records d <= pg_total_pages r * data_limit d
      /\ (pg_total_pages r = 0 <-> data_total_records d = 0).
Proof.
  intros T base_url d Hl1 Hl2 Ht1 Ht2.
  unfold create_response.
  rewrite get_total_pages_exact by (split; assumption).
  cbn [bind]. eexists. split; [reflexivity |]. cbn.
  pose proof (ceil_div_window (data_total_records d) (data_limit d) Hl1) as [Hlo Hhi].
  repeat split; try assumption; nia.
Qed.

Lemma create_response_pages_cover_records_witness :
  exists r,
    create_response "http://localhost:5002/users"
      {| data_page := 1; data_limit := 2; data_total_records := 5;
         data_records := @nil User |} = Return r
    /\ pg_total_pages r = 3.
Proof.
  destruct (create_response_pages_cover_records User "http://localhost:5002/users"
              {| data_page := 1; data_limit := 2; data_total_records := 5;
                 data_records := @nil User |})
    as [r (Hr & _ & _ & _ & _ & Hlo & Hhi & _)];
    [cbn; lia | reflexivity | cbn; lia | reflexivity |].
  exists r. split; [exact Hr |]. cbn in Hlo, Hhi. lia.
Defined.

(** Within the exact range and for a page number of at least 1, the next
    link is present exactly on the pages before the last one and the
    previous link exactly on pages 2 up to the last one. *)
Theorem create_response_links_follow_page_count :
  forall (T : Type) (base_url : string) (d : APIPaginationData T),
    0 < data_limit d -> data_limit d < 2 ^ 1075 ->
    0 <= data_total_records d -> data_total_records d < 2 ^ 53 ->
    1 <= data_page d ->
    exists r,
      create_response base_url d = Return r
      /\ (pg_next r <> None <-> data_page d < pg_total_pages r)
      /\ (pg_previous r <> None <-> 1 < data_page d <= pg_total_pages r).
Proof.
  intros T base_url d Hl1 Hl2 Ht1 Ht2 Hp.
  unfold create_response.
  rewrite get_total_pages_exact by (split; assumption).
  cbn [bind]. eexists. split; [reflexivity |]. cbn.
  pose proof (ceil_div_window (data_total_records d) (data_limit d) Hl1) as [Hlo Hhi].
  set (N := ceil_div (data_total_records d) (data_limit d)) in *.
  split.
  - rewrite next_none_iff. split; intros H; nia.
  - rewrite previous_none_iff. split.
    + intros H. split; [lia | nia].
    + intros [H1 H2] [H | H]; nia.
Qed.

Lemma create_response_links_follow_page_count_witness :
  exists r,
    create_response "http://localhost:5002/users?page=2&limit=1"
      {| data_page := 2; data_limit := 1; data_total_records := 3;
         data_records := @nil User |} = Return r
    /\ (pg_next r <> None <-> 2 < pg_total_pages r).
Proof.
  destruct (create_response_links_follow_page_count User
              "http://localhost:5002/users?page=2&limit=1"
              {| data_page := 2; data_limit := 1; data_total_records := 3;
                 data_records := @nil User |})
    as [r (Hr & Hn & _)];
    [cbn; lia | reflexivity | cbn; lia | reflexivity | cbn; lia |].
  exists r. split; [exact Hr | exact Hn].
Defined.

(** A limit of zero makes [create_response] raise [ZeroDivisionError],
    whatever the other fields are. *)
Theorem create_response_zero_limit :
  forall (T : Type) (base_url : string) (d : APIPaginationData T),
    data_limit d = 0 ->
    create_response base_url d
    = Raise (PyError "ZeroDivisionError" "division by zero" None).
Proof.
  intros T base_url d H0. unfold create_response, get_total_pages, PyFloat.truediv.
  rewrite H0. reflexivity.
Qed.

Lemma create_response_zero_limit_witness :
  create_response "http://localhost:5002/users"
    {| data_page := 1; data_limit := 0; data_total_records := 5;
       data_records := @nil User |}
  = Raise (PyError "ZeroDivisionError" "division by zero" None).
Proof.
  apply (create_response_zero_limit User). reflexivity.
Defined.

(** For a page number of zero or less, a positive limit and a
    non-negative record count, the previous link is present and points one
    page further down. *)
Theorem previous_link_below_first_page :
  forall (base_url : string) (page limit total_records : Z),
    page <= 0 -> 0 < limit -> 0 <= total_records ->
    get_previous_page base_url page limit total_records
    = Some (re_sub_page (str_of_int (page - 1)) base_url).
Proof.
  intros base_url page limit total_records Hp Hl Ht. unfold get_previous_page.
  destruct (Z.eqb_spec page 1) as [H1 | _]; [lia |].
  destruct (Z.leb_spec (total_records - (page - 1) * limit) 0) as [H | _]; [nia |].
  reflexivity.
Qed.

Lemma previous_link_below_first_page_witness :
  get_previous_page "http://localhost:5002/users?page=0" 0 1 0
  = Some "http://localhost:5002/users?page=-1".
Proof.
  apply (previous_link_below_first_page "http://localhost:5002/users?page=0" 0 1 0); lia.
Defined.

(** When the base URL holds no [page=] text, a link built by substitution
    is the base URL itself: the previous link always, and the next link
    when the URL holds the text [page] elsewhere. *)
Theorem link_without_page_parameter_is_base_url :
  forall (base_url : string) (page limit total_records : Z),
    contains "page=" base_url = false ->
    (get_previous_page base_url page limit total_records <> None ->
     get_previous_page base_url page limit total_records = Some base_url)
    /\
    (contains "page" base_url = true ->
     get_next_page base_url page limit total_records <> None ->
     get_next_page base_url page limit total_records = Some base_url).
Proof.
  intros base_url page limit total_records Hno. split.
  - unfold get_previous_page.
    destruct (page =? 1); [contradiction |].
    destruct (_ <=? 0); [contradiction |].
    intros _. now rewrite re_sub_page_no_match.
  - intros Hp. unfold get_next_page.
    destruct (_ <=? 0); [contradiction |].
    rewrite Hp. intros _. now rewrite re_sub_page_no_match.
Qed.

Lemma link_without_page_parameter_is_base_url_witness :
  get_previous_page "http://localhost:5002/users?limit=1" 2 1 3
  = Some "http://localhost:5002/users?limit=1"
  /\ get_next_page "http://localhost:5002/homepage/users" 1 1 3
     = Some "http://localhost:5002/homepage/users".
Proof.
  split.
  - apply (proj1 (link_without_page_parameter_is_base_url
                    "http://localhost:5002/users?limit=1" 2 1 3 eq_refl)).
    vm_compute. discriminate.
  - apply (proj2 (link_without_page_parameter_is_base_url
                    "http://localhost:5002/homepage/users" 1 1 3 eq_refl));
      [reflexivity | vm_compute; discriminate].
Defined.

(** ** Link rewriting *)

Lemma contains_app_r (sub pre t : string) :
  contains sub t = true -> contains sub (pre ++ t) = true.
Proof.
  intros Ht. induction pre as [| c pre IH]; [exact Ht |].
  change (contains sub (String c pre ++ t))
    with (startswith sub (String c (pre ++ t)) || contains sub (pre ++ t)).
  rewrite IH. apply orb_true_r.
Qed.

Lemma startswith_app (sub rest : string) : startswith sub (sub ++ rest) = true.
Proof.
  induction sub as [| c sub IH]; [reflexivity |].
  simpl. now rewrite Ascii.eqb_refl, IH.
Qed.

Lemma contains_prefix (sub rest : string) : contains sub (sub ++ rest) = true.
Proof.
  destruct (sub ++ rest) eqn:E; simpl; rewrite <- E, startswith_app; reflexivity.
Qed.

Lemma re_sub_page_in_url (path : string) (before after : list URL.param)
    (d : ascii) (value_rest repl : string) :
  Ascii.eqb d "&" = false ->
  contains "page=" (path ++ "?" ++ URL.leading_text before) = false ->
  contains "page=" (value_rest ++ URL.trailing_text after) = false ->
  re_sub_page repl
    (URL.url_text path (before ++ ("page", String d value_rest) :: after))
  = URL.url_text path (before ++ ("page", repl ++ value_rest) :: after).
Proof.
  intros Hd Hpre Hsuf.
  rewrite !url_text_split.
  change (URL.param_text ("page", String d value_rest) ++ URL.trailing_text after)
    with ("page=" ++ (String d value_rest ++ URL.trailing_text after)).
  change (URL.param_text ("page", repl ++ value_rest) ++ URL.trailing_text after)
    with ("page=" ++ ((repl ++ value_rest) ++ URL.trailing_text after)).
  rewrite (append_assoc_s repl value_rest (URL.trailing_text after)).
  apply (re_sub_page_single repl _ d _ Hpre Hsuf Hd).
Qed.

(** The substitution replaces exactly one character: for a page parameter
    whose value starts with a character other than [&], in a URL where the
    text [page=] occurs nowhere else, the result is the same URL with that
    first character replaced by the replacement text and the rest of the
    value kept. *)
Theorem rewrite_replaces_first_character :
  forall (path : string) (before after : list URL.param)
         (d : ascii) (value_rest repl : string),
    Ascii.eqb d "&" = false ->
    contains "page=" (path ++ "?" ++ URL.leading_text before) = false ->
    contains "page=" (value_rest ++ URL.trailing_text after) = false ->
    re_sub_page repl
      (URL.url_text path (before ++ ("page", String d value_rest) :: after))
    = URL.url_text path (before ++ ("page", repl ++ value_rest) :: after).
Proof.
  intros path before after d value_rest repl. apply re_sub_page_in_url.
Qed.

Lemma rewrite_replaces_first_character_witness :
  re_sub_page "9"
    (URL.url_text "http://localhost:5002/users" ([] ++ [("page", "10"); ("limit", "1")]))
  = URL.url_text "http://localhost:5002/users" ([] ++ [("page", "90"); ("limit", "1")]).
Proof.
  apply (rewrite_replaces_first_character "http://localhost:5002/users"
           [] [("limit", "1")] "1"%char "0" "9");
    reflexivity.
Defined.

Lemma str_of_digit (n : Z) :
  0 <= n <= 9 ->
  exists d, str_of_int n = String d "" /\ Ascii.eqb d "&" = false.
Proof.
  intros Hn. replace n with (Z.of_nat (Z.to_nat n)) by lia.
  assert (Hk : (Z.to_nat n < 10)%nat) by lia.
  revert Hk. generalize (Z.to_nat n). intros k Hk.
  do 10 (destruct k as [| k]; [eexists; split; reflexivity |]).
  lia.
Qed.

Section Navigation.
Variables (path : string) (before after : list URL.param).
Hypothesis Hpre : contains "page=" (path ++ "?" ++ URL.leading_text before) = false.
Hypothesis Hsuf : contains "page=" (URL.trailing_text after) = false.

Lemma url_at_contains_page (n : Z) :
  contains "page" (URL.url_at path before after n) = true.
Proof.
  unfold URL.url_at. rewrite url_text_split. apply contains_app_r.
  change (URL.param_text ("page", str_of_int n) ++ URL.trailing_text after)
    with ("page" ++ ("=" ++ str_of_int n ++ URL.trailing_text after)).
  apply contains_prefix.
Qed.

Lemma rewrite_url_at (n target : Z) :
  0 <= n <= 9 ->
  re_sub_page (str_of_int target) (URL.url_at path before after n)
  = URL.url_at path before after target.
Proof.
  intros Hn. destruct (str_of_digit n Hn) as [d [Hd Hamp]].
  unfold URL.url_at. rewrite Hd.
  rewrite (re_sub_page_in_url path before after d "" (str_of_int target) Hamp Hpre Hsuf).
  now rewrite append_nil_r.
Qed.

End Navigation.

(** Navigation round trip. In a URL where [page=] occurs only as the page
    parameter: from a page between 2 and 9 with a previous link, the
    previous link leads to the URL of the page before, whose next link
    leads back; from a page between 1 and 8 with a next link, the next
    link leads to the URL of the page after, whose previous link leads
    back. *)
Theorem previous_and_next_links_are_inverse :
  forall (path : string) (before after : list URL.param) (page limit total_records : Z),
    contains "page=" (path ++ "?" ++ URL.leading_text before) = false ->
    contains "page=" (URL.trailing_text after) = false ->
    (2 <= page <= 9 -> 0 < total_records - (page - 1) * limit ->
     get_previous_page (URL.url_at path before after page) page limit total_records
     = Some (URL.url_at path before after (page - 1))
     /\ get_next_page (URL.url_at path before after (page - 1)) (page - 1)
          limit total_records
        = Some (URL.url_at path before after page))
    /\
    (1 <= page <= 8 -> 0 < total_records - page * limit ->
     get_next_page (URL.url_at path before after page) page limit total_records
     = Some (URL.url_at path before after (page + 1))
     /\ get_previous_page (URL.url_at path before after (page + 1)) (page + 1)
          limit total_records
        = Some (URL.url_at path before after page)).
Proof.
  intros path before after page limit total_records Hpre Hsuf. split.
  - intros Hp Ht. split.
    + unfold get_previous_page.
      destruct (Z.eqb_spec page 1) as [H1 | _]; [lia |].
      destruct (Z.leb_spec (total_records - (page - 1) * limit) 0) as [H | _]; [lia |].
      now rewrite (rewrite_url_at path before after Hpre Hsuf page (page - 1)) by lia.
    + unfold get_next_page.
      destruct (Z.leb_spec (total_records - (page - 1) * limit) 0) as [H | _]; [lia |].
      rewrite url_at_contains_page.
      rewrite (rewrite_url_at path before after Hpre Hsuf (page - 1) (page - 1 + 1)) by lia.
      now replace (page - 1 + 1) with page by lia.
  - intros Hp Ht. split.
    + unfold get_next_page.
      destruct (Z.leb_spec (total_records - page * limit) 0) as [H | _]; [lia |].
      rewrite url_at_contains_page.
      now rewrite (rewrite_url_at path before after Hpre Hsuf page (page + 1)) by lia.
    + unfold get_previous_page.
      destruct (Z.eqb_spec (page + 1) 1) as [H1 | _]; [lia |].
      replace (page + 1 - 1) with page by lia.
      destruct (Z.leb_spec (total_records - page * limit) 0) as [H | _]; [lia |].
      now rewrite (rewrite_url_at path before after Hpre Hsuf (page + 1) page) by lia.
Qed.

Lemma previous_and_next_links_are_inverse_witness :
  get_previous_page "http://localhost:5002/users?page=3&limit=1" 3 1 5
  = Some "http://localhost:5002/users?page=2&limit=1"
  /\ get_next_page "http://localhost:5002/users?page=2&limit=1" 2 1 5
     = Some "http://localhost:5002/users?page=3&limit=1".
Proof.
  apply (proj1 (previous_and_next_links_are_inverse "http://localhost:5002/users"
                  [] [("limit", "1")] 3 1 5 eq_refl eq_refl)); lia.
Defined.

(** ** DictToObj *)

Lemma lookup_filter_other (key k : string) (attrs : list (string * pyval)) :
  String.eqb k key = false ->
  lookup key (filter (fun kv => negb (String.eqb (fst kv) k)) attrs) = lookup key attrs.
Proof.
  intros Hk. induction attrs as [| [k' v'] attrs IH]; [reflexivity |].
  cbn [filter fst lookup].
  destruct (String.eqb_spec k' k) as [-> | Hne]; cbn [negb].
  - now rewrite Hk.
  - cbn [lookup]. now rewrite IH.
Qed.

Lemma lookup_setattr (key k : string) (v : pyval) (attrs : list (string * pyval)) :
  lookup key (setattr attrs k v)
  = if String.eqb k key then Some v else lookup key attrs.
Proof.
  unfold setattr. cbn [lookup].
  destruct (String.eqb k key) eqn:Hk; [reflexivity |].
  now apply lookup_filter_other.
Qed.

Lemma fold_left_pointwise {A B : Type} (f g : A -> B -> A) (l : list B) (a : A) :
  (forall x y, f x y = g x y) -> fold_left f l a = fold_left g l a.
Proof.
  intros Hfg. revert a. induction l as [| y l IH]; intros a; [reflexivity |].
  cbn. now rewrite Hfg, IH.
Qed.

Lemma DictToObj_unfold (items : list (string * pyval)) :
  DictToObj items = PyInstance "DictToObj" (fold_left dict_to_obj_step items []).
Proof.
  unfold DictToObj. f_equal. apply fold_left_pointwise.
  intros attrs [k v]. unfold dict_to_obj_step. cbn [fst snd]. now destruct v.
Qed.

Lemma lookup_fold_absent (key : string) (items acc : list (string * pyval)) :
  ~ In key (map fst items) ->
  lookup key (fold_left dict_to_obj_step items acc) = lookup key acc.
Proof.
  revert acc. induction items as [| [k v] items IH]; intros acc Hnot; [reflexivity |].
  cbn [fold_left]. rewrite IH by (intros Hin; apply Hnot; right; exact Hin).
  unfold dict_to_obj_step. cbn [fst snd]. rewrite lookup_setattr.
  destruct (String.eqb_spec k key) as [-> | _]; [| reflexivity].
  exfalso. apply Hnot. left. reflexivity.
Qed.

Lemma lookup_fold_present (key : string) (v : pyval) (items acc : list (string * pyval)) :
  NoDup (map fst items) -> In (key, v) items ->
  lookup key (fold_left dict_to_obj_step items acc) = Some (hex_of_uuid_value v).
Proof.
  revert acc. induction items as [| [k v'] items IH]; intros acc Hnd Hin; [contradiction |].
  cbn [map fst] in Hnd. inversion Hnd as [| ? ? Hfresh Hnd']. subst.
  cbn [fold_left]. destruct Hin as [Heq | Hin].
  - injection Heq as -> ->.
    rewrite lookup_fold_absent by exact Hfresh.
    unfold dict_to_obj_step. cbn [fst snd]. rewrite lookup_setattr.
    now rewrite String.eqb_refl.
  - now apply IH.
Qed.

Lemma lookup_fold_converted (key : string) (w : pyval) (items acc : list (string * pyval)) :
  lookup key (fold_left dict_to_obj_step items acc) = Some w ->
  (exists v, w = hex_of_uuid_value v) \/ lookup key acc = Some w.
Proof.
  revert acc. induction items as [| [k v] items IH]; intros acc Hl; [right; exact Hl |].
  cbn [fold_left] in Hl. destruct (IH _ Hl) as [Hv | Hacc]; [left; exact Hv |].
  unfold dict_to_obj_step in Hacc. cbn [fst snd] in Hacc. rewrite lookup_setattr in Hacc.
  destruct (String.eqb k key); [| right; exact Hacc].
  injection Hacc as <-. left. eexists. reflexivity.
Qed.

(** For a dictionary (its keys are distinct) none of whose keys starts
    with two underscores, [DictToObj] gives an object on which every key
    is an attribute holding the key's value, a [UUID] value being replaced
    by its [hex] text.  Among the names that do not start with two
    underscores, one that is not a key is not an attribute, and none holds
    a [UUID]. *)
Theorem dict_to_obj_attributes :
  forall items : list (string * pyval),
    NoDup (map fst items) ->
    (forall key, In key (map fst items) -> reserved_name key = false) ->
    (forall key v, In (key, v) items ->
       hasattr (DictToObj items) key = true
       /\ getattr (DictToObj items) key = Return (hex_of_uuid_value v))
    /\
    (forall key, reserved_name key = false -> ~ In key (map fst items) ->
       hasattr (DictToObj items) key = false
       /\ getattr (DictToObj items) key
          = Raise (PyError "AttributeError"
                     ("'DictToObj' object has no attribute '" ++ key ++ "'") None))
    /\
    (forall key u, reserved_name key = false ->
       getattr (DictToObj items) key <> Return (VUUID u)).
Proof.
  intros items Hnd _. rewrite DictToObj_unfold. split; [| split].
  - intros key v Hin. cbn [hasattr getattr].
    now rewrite (lookup_fold_present key v items [] Hnd Hin).
  - intros key _ Hnot. cbn [hasattr getattr class_name].
    now rewrite (lookup_fold_absent key items [] Hnot).
  - intros key u _ Hget. cbn [getattr] in Hget.
    destruct (lookup key (fold_left dict_to_obj_step items [])) as [w |] eqn:Hl;
      [| discriminate].
    injection Hget as ->.
    destruct (lookup_fold_converted key (VUUID u) items [] Hl) as [[v Hv] | Hnil];
      [destruct v; discriminate | discriminate].
Qed.

Lemma dict_to_obj_attributes_witness :
  getattr (DictToObj [("id", VUUID {| hex := "0123456789abcdef0123456789abcdef" |});
                      ("name", VStr "alice")]) "id"
  = Return (VStr "0123456789abcdef0123456789abcdef").
Proof.
  apply (proj1 (dict_to_obj_attributes
                  [("id", VUUID {| hex := "0123456789abcdef0123456789abcdef" |});
                   ("name", VStr "alice")]
                  ltac:(repeat constructor; cbn; intuition discriminate)
                  ltac:(cbn; intros key [<- | [<- | []]]; reflexivity))
           "id" (VUUID {| hex := "0123456789abcdef0123456789abcdef" |})).
  left. reflexivity.
Defined.

(** ** From a storage row to the wire *)

Lemma to_response_of_row {R : Runtime} (row : Row) (status : Z) :
  (resp <- UserMapper.to_response (user_of_row row) ;; Return (status, resp))
  = row_answer status row.
Proof.
  unfold row_answer, local_timestamps, UserMapper.to_response, user_of_row. cbn.
  destruct (astimezone (row_created_at row)) as [c | e]; cbn; [| reflexivity].
  destruct (row_updated_at row) as [x |]; cbn; [| reflexivity].
  destruct (astimezone x) as [x' | e]; reflexivity.
Qed.

Lemma local_timestamps_returns_iff {R : Runtime} (row : Row) :
  (exists ts, local_timestamps row = Return ts)
  <-> (local_utcoffset (row_created_at row) <> None
       /\ forall d, row_updated_at row = Some d -> local_utcoffset d <> None).
Proof.
  unfold local_timestamps. rewrite <- astimezone_returns_iff. split.
  - intros [ts Hts].
    destruct (astimezone (row_created_at row)) as [c | e]; [| discriminate].
    split; [eexists; reflexivity |].
    intros d Hd. apply astimezone_returns_iff. rewrite Hd in Hts. cbn in Hts.
    destruct (astimezone d) as [d' | e]; [eexists; reflexivity | discriminate].
  - intros [[c Hc] Hupd]. rewrite Hc. cbn.
    destruct (row_updated_at row) as [d |]; cbn; [| eexists; reflexivity].
    destruct (proj2 (astimezone_returns_iff d) (Hupd d eq_refl)) as [d' ->].
    eexists. reflexivity.
Qed.

Lemma local_timestamps_error {R : Runtime} (row : Row) (e : exn) :
  local_timestamps row = Raise e -> exists cls text, e = PyError cls text None.
Proof.
  unfold local_timestamps, UserMapper.astimezone_if_set, astimezone.
  destruct (local_utcoffset (row_created_at row)); cbn.
  - destruct (row_updated_at row) as [d |]; cbn; [| discriminate].
    destruct (local_utcoffset d); cbn; [discriminate |].
    intros [= <-]. eexists. eexists. reflexivity.
  - intros [= <-]. eexists. eexists. reflexivity.
Qed.

(** Rendering a storage row: the row always converts to the domain user
    with its fields, and that user to the wire response with the row's
    identifier as [hex] text, its name and email, and its timestamps moved
    to the local zone, created first.  The rendering fails, with the error
    of [astimezone()], exactly when that call raises for one of the
    timestamps the row carries. *)
Theorem stored_row_renders :
  forall (R : Runtime) (row : Row),
    UserMapper.to_domain (DictToObj (asdict row)) = Return (user_of_row row)
    /\
    (u <- UserMapper.to_domain (DictToObj (asdict row)) ;; UserMapper.to_response u)
    = (ts <- local_timestamps row ;;
       Return (response_of_row row (fst ts) (snd ts)))
    /\
    ((exists ts, local_timestamps row = Return ts)
     <-> (local_utcoffset (row_created_at row) <> None
          /\ forall d, row_updated_at row = Some d -> local_utcoffset d <> None)).
Proof.
  intros R row. split; [apply to_domain_row |].
  split; [| apply local_timestamps_returns_iff].
  rewrite to_domain_row. cbn [bind].
  unfold local_timestamps, UserMapper.to_response. cbn.
  destruct (astimezone (row_created_at row)) as [c | e]; cbn; [| reflexivity].
  destruct (row_updated_at row) as [x |]; cbn; [| reflexivity].
  destruct (astimezone x) as [x' | e]; reflexivity.
Qed.

(** ** The service passes results through *)

Lemma service_on_error_raises {A : Type} (message : string) (ctx : context_t) (err : exn) :
  exists e, @UserService.on_error A message ctx err = Raise e.
Proof.
  unfold UserService.on_error.
  destruct (UserService.cause_of_error err); cbn [bind]; eexists; reflexivity.
Qed.

Lemma service_shape_returns (call : result (option User))
    (message none_message : string) (status : Z) (ctx none_ctx : context_t) (u : User) :
  (x <- try_except call (UserService.on_error message ctx) ;;
   match x with
   | None => UserService.on_none none_message status none_ctx
   | Some u' => Return u'
   end) = Return u
  <-> call = Return (Some u).
Proof.
  destruct call as [[u' |] | err]; cbn [try_except bind].
  - split; intros Hx; injection Hx as ->; reflexivity.
  - unfold UserService.on_none. split; discriminate.
  - destruct (service_on_error_raises (A := option User) message ctx err) as [e ->].
    cbn [bind]. split; discriminate.
Qed.

(** Each service operation returns a user exactly when the repository
    call returned that user: it never invents, replaces or drops one. *)
Theorem service_returns_what_repository_returns :
  forall (repo : IUserRepository) (user_id : string) (user u : User),
    (UserService.register_user repo user = Return u
     <-> create_user repo user = Return (Some u))
    /\ (UserService.retrieve_user repo user_id = Return u
        <-> read_user repo user_id = Return (Some u))
    /\ (UserService.replace_user repo user_id user = Return u
        <-> update_user repo user_id user = Return (Some u))
    /\ (UserService.remove_user repo user_id = Return u
        <-> delete_user repo user_id = Return (Some u)).
Proof.
  intros repo user_id user u.
  unfold UserService.register_user, UserService.retrieve_user,
    UserService.replace_user, UserService.remove_user.
  repeat split; apply service_shape_returns.
Qed.

(** ** Outcomes of the repository on an acquired connection *)

Section Acquired.
Context {R : Runtime}.
Variables (db_service : DBService) (engine : AsyncEngine) (conn : AsyncConnection).
Hypothesis Hengine : private_async_engine db_service = Some engine.
Hypothesis Hconn : connect engine = Return conn.

Ltac enter_call :=
  unfold UserRepository.create_user, UserRepository.read_user,
    UserRepository.update_user, UserRepository.delete_user, async_engine;
  rewrite Hengine; cbn [bind]; rewrite Hconn; cbn [bind].

(** What follows the statement once it returned rows. *)
Lemma row_tail_cases (res : CursorResult) :
  let tail := (obj <- UserRepository.first_obj res ;;
               commit conn ;;;
               u <- UserMapper.to_domain obj ;;
               Return (Some u)) in
  (exists row, first res = Some row /\ commit conn = Return tt
               /\ tail = Return (Some (user_of_row row)))
  \/ (first res = None
      /\ tail = Raise (PyError "AttributeError"
                         "'NoneType' object has no attribute '_asdict'" None))
  \/ (exists row e, first res = Some row /\ commit conn = Raise e /\ tail = Raise e).
Proof.
  cbv zeta. unfold UserRepository.first_obj.
  destruct (first res) as [row |]; cbn [bind].
  - destruct (commit conn) as [[] | e]; cbn [bind].
    + left. exists row. rewrite to_domain_row. repeat split.
    + right. right. exists row, e. repeat split.
  - right. left. split; reflexivity.
Qed.

Lemma repository_handler (message : string) (ctx : context_t) (err : exn) :
  rollback conn = Return tt ->
  @UserRepository.on_error (option User) conn message ctx err
  = Raise (ServerError message (Some 500)
             (Some {| context := ctx; cause := CStr (str_of_dunder_cause err) |})).
Proof. intros Hrb. unfold UserRepository.on_error. now rewrite Hrb. Qed.

(** The body shared by the three operations by identifier. *)
Lemma by_id_found (mk : UUID -> statement) (message : string) (ctx : context_t)
    (user_id : string) (uid : UUID) (res : CursorResult) (row : Row) :
  uuid_of_string user_id = Some uid ->
  execute conn (mk uid) = Return res ->
  rowcount res <> 0 -> first res = Some row -> commit conn = Return tt ->
  try_except
    (uid <- UserRepository.UUID_init user_id ;;
     res <- execute conn (mk uid) ;;
     if rowcount res =? 0 then Return None
     else
       obj <- UserRepository.first_obj res ;;
       commit conn ;;;
       u <- UserMapper.to_domain obj ;;
       Return (Some u))
    (UserRepository.on_error conn message ctx)
  = Return (Some (user_of_row row)).
Proof.
  intros Hid Hex Hrc Hfirst Hcommit.
  unfold UserRepository.UUID_init. rewrite Hid. cbn [bind]. rewrite Hex. cbn [bind].
  destruct (Z.eqb_spec (rowcount res) 0) as [H0 | _]; [contradiction |].
  unfold UserRepository.first_obj. rewrite Hfirst. cbn [bind].
  rewrite Hcommit. cbn [bind]. rewrite to_domain_row. reflexivity.
Qed.

Lemma by_id_commit_fails (mk : UUID -> statement) (message : string) (ctx : context_t)
    (user_id : string) (uid : UUID) (res : CursorResult) (row : Row) (e : exn) :
  uuid_of_string user_id = Some uid ->
  execute conn (mk uid) = Return res ->
  rowcount res <> 0 -> first res = Some row -> commit conn = Raise e ->
  rollback conn = Return tt ->
  try_except
    (uid <- UserRepository.UUID_init user_id ;;
     res <- execute conn (mk uid) ;;
     if rowcount res =? 0 then Return None
     else
       obj <- UserRepository.first_obj res ;;
       commit conn ;;;
       u <- UserMapper.to_domain obj ;;
       Return (Some u))
    (UserRepository.on_error conn message ctx)
  = Raise (ServerError message (Some 500)
             (Some {| context := ctx; cause := CStr (str_of_dunder_cause e) |})).
Proof.
  intros Hid Hex Hrc Hfirst Hcommit Hrb.
  unfold UserRepository.UUID_init. rewrite Hid. cbn [bind]. rewrite Hex. cbn [bind].
  destruct (Z.eqb_spec (rowcount res) 0) as [H0 | _]; [contradiction |].
  unfold UserRepository.first_obj. rewrite Hfirst. cbn [bind].
  rewrite Hcommit. cbn [bind try_except]. now apply repository_handler.
Qed.

Lemma by_id_outcomes (mk : UUID -> statement) (message : string) (ctx : context_t)
    (user_id : string) :
  rollback conn = Return tt ->
  let out :=
    try_except
      (uid <- UserRepository.UUID_init user_id ;;
       res <- execute conn (mk uid) ;;
       if rowcount res =? 0 then Return None
       else
         obj <- UserRepository.first_obj res ;;
         commit conn ;;;
         u <- UserMapper.to_domain obj ;;
         Return (Some u))
      (UserRepository.on_error conn message ctx) in
  out = Return None
  \/ (exists row, out = Return (Some (user_of_row row)))
  \/ (exists c, out = Raise (ServerError message (Some 500)
                               (Some {| context := ctx; cause := CStr c |}))).
Proof.
  intros Hrb. cbv zeta.
  assert (Hfault : forall err,
             exists c, @UserRepository.on_error (option User) conn message ctx err
                       = Raise (ServerError message (Some 500)
                                  (Some {| context := ctx; cause := CStr c |})))
    by (intros err; eexists; now apply repository_handler).
  unfold UserRepository.UUID_init.
  destruct (uuid_of_string user_id) as [uid |]; cbn [bind try_except];
    [| right; right; apply Hfault].
  destruct (execute conn (mk uid)) as [res | e]; cbn [bind try_except];
    [| right; right; apply Hfault].
  destruct (rowcount res =? 0); [left; reflexivity |].
  destruct (row_tail_cases res) as [(row & _ & _ & ->) | [(_ & ->) | (row & e & _ & _ & ->)]];
    cbn [try_except].
  - right. left. exists row. reflexivity.
  - right. right. apply Hfault.
  - right. right. apply Hfault.
Qed.

Lemma create_outcomes (user : User) :
  rollback conn = Return tt ->
  (exists row, UserRepository.create_user db_service user = Return (Some (user_of_row row)))
  \/ (exists c, UserRepository.create_user db_service user
                = Raise (ServerError "An error occurred when creating a user into database"
                           (Some 500)
                           (Some {| context := CtxUser user; cause := CStr c |}))).
Proof.
  intros Hrb. enter_call.
  assert (Hfault : forall err,
             exists c, @UserRepository.on_error (option User) conn
                         "An error occurred when creating a user into database"
                         (CtxUser user) err
                       = Raise (ServerError "An error occurred when creating a user into database"
                                  (Some 500)
                                  (Some {| context := CtxUser user; cause := CStr c |})))
    by (intros err; eexists; now apply repository_handler).
  destruct (execute conn (InsertUser (UserMapper.to_persistence user))) as [res | e];
    cbn [bind try_except]; [| right; apply Hfault].
  destruct (row_tail_cases res) as [(row & _ & _ & ->) | [(_ & ->) | (row & e & _ & _ & ->)]];
    cbn [try_except].
  - left. exists row. reflexivity.
  - right. apply Hfault.
  - right. apply Hfault.
Qed.

Lemma read_outcomes (user_id : string) :
  rollback conn = Return tt ->
  UserRepository.read_user db_service user_id = Return None
  \/ (exists row, UserRepository.read_user db_service user_id
                  = Return (Some (user_of_row row)))
  \/ (exists c, UserRepository.read_user db_service user_id
                = Raise (ServerError "An error occurred when reading a user from database"
                           (Some 500)
                           (Some {| context := CtxStr user_id; cause := CStr c |}))).
Proof. intros Hrb. enter_call. now apply by_id_outcomes. Qed.

Lemma update_outcomes (user_id : string) (user : User) :
  rollback conn = Return tt ->
  UserRepository.update_user db_service user_id user = Return None
  \/ (exists row, UserRepository.update_user db_service user_id user
                  = Return (Some (user_of_row row)))
  \/ (exists c, UserRepository.update_user db_service user_id user
                = Raise (ServerError "An error occurred when updating a user from database"
                           (Some 500)
                           (Some {| context := CtxUserUpdate user_id user;
                                    cause := CStr c |}))).
Proof.
  intros Hrb. enter_call.
  now apply (by_id_outcomes (fun uid => UpdateUser uid (name user) (email user))).
Qed.

Lemma delete_outcomes (user_id : string) :
  rollback conn = Return tt ->
  UserRepository.delete_user db_service user_id = Return None
  \/ (exists row, UserRepository.delete_user db_service user_id
                  = Return (Some (user_of_row row)))
  \/ (exists c, UserRepository.delete_user db_service user_id
                = Raise (ServerError "An error occurred when deleting a user from database"
                           (Some 500)
                           (Some {| context := CtxStr user_id; cause := CStr c |}))).
Proof. intros Hrb. enter_call. now apply by_id_outcomes. Qed.

Lemma create_found (user : User) (res : CursorResult) (row : Row) :
  execute conn (InsertUser (UserMapper.to_persistence user)) = Return res ->
  first res = Some row -> commit conn = Return tt ->
  UserRepository.create_user db_service user = Return (Some (user_of_row row)).
Proof.
  intros Hex Hfirst Hcommit. enter_call. rewrite Hex. cbn [bind].
  unfold UserRepository.first_obj. rewrite Hfirst. cbn [bind].
  rewrite Hcommit. cbn [bind]. rewrite to_domain_row. reflexivity.
Qed.

Lemma read_found (user_id : string) (uid : UUID) (res : CursorResult) (row : Row) :
  uuid_of_string user_id = Some uid ->
  execute conn (SelectUser uid) = Return res ->
  rowcount res <> 0 -> first res = Some row -> commit conn = Return tt ->
  UserRepository.read_user db_service user_id = Return (Some (user_of_row row)).
Proof. intros. enter_call. now apply (by_id_found SelectUser) with (uid := uid) (res := res). Qed.

Lemma update_found (user_id : string) (user : User) (uid : UUID)
    (res : CursorResult) (row : Row) :
  uuid_of_string user_id = Some uid ->
  execute conn (UpdateUser uid (name user) (email user)) = Return res ->
  rowcount res <> 0 -> first res = Some row -> commit conn = Return tt ->
  UserRepository.update_user db_service user_id user = Return (Some (user_of_row row)).
Proof.
  intros. enter_call.
  now apply (by_id_found (fun uid => UpdateUser uid (name user) (email user)))
    with (uid := uid) (res := res).
Qed.

Lemma delete_found (user_id : string) (uid : UUID) (res : CursorResult) (row : Row) :
  uuid_of_string user_id = Some uid ->
  execute conn (DeleteUser uid) = Return res ->
  rowcount res <> 0 -> first res = Some row -> commit conn = Return tt ->
  UserRepository.delete_user db_service user_id = Return (Some (user_of_row row)).
Proof. intros. enter_call. now apply (by_id_found DeleteUser) with (uid := uid) (res := res). Qed.

Lemma delete_commit_fails (user_id : string) (uid : UUID) (res : CursorResult)
    (row : Row) (e : exn) :
  uuid_of_string user_id = Some uid ->
  execute conn (DeleteUser uid) = Return res ->
  rowcount res <> 0 -> first res = Some row -> commit conn = Raise e ->
  rollback conn = Return tt ->
  UserRepository.delete_user db_service user_id
  = Raise (ServerError "An error occurred when deleting a user from database" (Some 500)
             (Some {| context := CtxStr user_id;
                      cause := CStr (str_of_dunder_cause e) |})).
Proof.
  intros. enter_call.
  now apply (by_id_commit_fails DeleteUser) with (uid := uid) (res := res) (row := row).
Qed.

Lemma update_commit_fails (user_id : string) (user : User) (uid : UUID)
    (res : CursorResult) (row : Row) (e : exn) :
  uuid_of_string user_id = Some uid ->
  execute conn (UpdateUser uid (name user) (email user)) = Return res ->
  rowcount res <> 0 -> first res = Some row -> commit conn = Raise e ->
  rollback conn = Return tt ->
  UserRepository.update_user db_service user_id user
  = Raise (ServerError "An error occurred when updating a user from database" (Some 500)
             (Some {| context := CtxUserUpdate user_id user;
                      cause := CStr (str_of_dunder_cause e) |})).
Proof.
  intros. enter_call.
  now apply (by_id_commit_fails (fun uid => UpdateUser uid (name user) (email user)))
    with (uid := uid) (res := res) (row := row).
Qed.

End Acquired.

(** On an acquired connection whose rollback succeeds, every repository
    operation ends in one of a few ways: [None] (never for a create), the
    user of a storage row, or the operation's own internal error with
    status 500 and a [Detail] holding the operation's input. *)
Theorem repository_outcomes :
  forall (R : Runtime) (db_service : DBService) (engine : AsyncEngine)
         (conn : AsyncConnection) (user_id : string) (user : User),
    private_async_engine db_service = Some engine ->
    connect engine = Return conn ->
    rollback conn = Return tt ->
    ((exists row, UserRepository.create_user db_service user
                  = Return (Some (user_of_row row)))
     \/ (exists c, UserRepository.create_user db_service user
                   = Raise (ServerError "An error occurred when creating a user into database"
                              (Some 500)
                              (Some {| context := CtxUser user; cause := CStr c |}))))
    /\
    (UserRepository.read_user db_service user_id = Return None
     \/ (exists row, UserRepository.read_user db_service user_id
                     = Return (Some (user_of_row row)))
     \/ (exists c, UserRepository.read_user db_service user_id
                   = Raise (ServerError "An error occurred when reading a user from database"
                              (Some 500)
                              (Some {| context := CtxStr user_id; cause := CStr c |}))))
    /\
    (UserRepository.update_user db_service user_id user = Return None
     \/ (exists row, UserRepository.update_user db_service user_id user
                     = Return (Some (user_of_row row)))
     \/ (exists c, UserRepository.update_user db_service user_id user
                   = Raise (ServerError "An error occurred when updating a user from database"
                              (Some 500)
                              (Some {| context := CtxUserUpdate user_id user;
                                       cause := CStr c |}))))
    /\
    (UserRepository.delete_user db_service user_id = Return None
     \/ (exists row, UserRepository.delete_user db_service user_id
                     = Return (Some (user_of_row row)))
     \/ (exists c, UserRepository.delete_user db_service user_id
                   = Raise (ServerError "An error occurred when deleting a user from database"
                              (Some 500)
                              (Some {| context := CtxStr user_id; cause := CStr c |})))).
Proof.
  intros R db_service engine conn user_id user Hengine Hconn Hrb.
  split; [| split; [| split]].
  - exact (create_outcomes db_service engine conn Hengine Hconn user Hrb).
  - exact (read_outcomes db_service engine conn Hengine Hconn user_id Hrb).
  - exact (update_outcomes db_service engine conn Hengine Hconn user_id user Hrb).
  - exact (delete_outcomes db_service engine conn Hengine Hconn user_id Hrb).
Qed.

Lemma repository_outcomes_witness :
  @UserRepository.read_user SampleRuntime.runtime SampleRuntime.db_no_rows "not-a-uuid"
  = Return None
  \/ (exists row, @UserRepository.read_user SampleRuntime.runtime SampleRuntime.db_no_rows
                    "not-a-uuid" = Return (Some (user_of_row row)))
  \/ (exists c, @UserRepository.read_user SampleRuntime.runtime SampleRuntime.db_no_rows
                  "not-a-uuid"
                = Raise (ServerError "An error occurred when reading a user from database"
                           (Some 500)
                           (Some {| context := CtxStr "not-a-uuid"; cause := CStr c |}))).
Proof.
  exact (proj1 (proj2 (repository_outcomes SampleRuntime.runtime SampleRuntime.db_no_rows
                         {| connect := Return SampleRuntime.conn_no_rows |}
                         SampleRuntime.conn_no_rows "not-a-uuid"
                         {| id := None; name := "alice"; email := "a@x.com";
                            created_at := None; updated_at := None |}
                         eq_refl eq_refl eq_refl))).
Defined.

Lemma create_user_not_none {R : Runtime} (db_service : DBService) (user : User) :
  UserRepository.create_user db_service user <> Return None.
Proof.
  unfold UserRepository.create_user, async_engine.
  destruct (private_async_engine db_service) as [engine |]; cbn [bind]; [| discriminate].
  destruct (connect engine) as [conn | e]; cbn [bind]; [| discriminate].
  destruct (execute conn (InsertUser (UserMapper.to_persistence user))) as [res | e];
    cbn [bind try_except].
  - destruct (row_tail_cases conn res)
      as [(row & _ & _ & ->) | [(_ & ->) | (row & e & _ & _ & ->)]];
      cbn [try_except]; try discriminate;
      match goal with
      | |- UserRepository.on_error conn ?m ?c ?err <> _ =>
          destruct (handler_raises conn m c err) as [e' ->]; discriminate
      end.
  - destruct (handler_raises conn "An error occurred when creating a user into database"
                (CtxUser user) e) as [e' ->]; discriminate.
Qed.

(** [create_user] never returns [None], whatever the driver does; so over
    this repository [register_user] never raises its own "User could not
    be created" error. *)
Theorem create_user_never_returns_none :
  forall (R : Runtime) (db_service : DBService) (user : User),
    UserRepository.create_user db_service user <> Return None
    /\ (forall status_code detail,
           UserService.register_user (UserRepository.make db_service) user
           <> Raise (ServerError "User could not be created" status_code detail)).
Proof.
  intros R db_service user. split; [apply create_user_not_none |].
  intros status_code detail. unfold UserService.register_user.
  change (create_user (UserRepository.make db_service) user)
    with (UserRepository.create_user db_service user).
  pose proof (create_user_not_none db_service user) as Hnn.
  destruct (UserRepository.create_user db_service user) as [[u |] | err];
    cbn [try_except bind]; [discriminate | contradiction |].
  unfold UserService.on_error.
  destruct (UserService.cause_of_error err) as [c | e] eqn:Hc; cbn [bind];
    [discriminate |].
  destruct err as [m sc [d |] | cls text dc]; cbn in Hc; try discriminate.
  injection Hc as <-. discriminate.
Qed.

(** ** The user routes end to end *)

Section Routes.
Context {R : Runtime}.
Variables (db_service : DBService) (engine : AsyncEngine) (conn : AsyncConnection).
Hypothesis Hengine : private_async_engine db_service = Some engine.
Hypothesis Hconn : connect engine = Return conn.

Lemma respond_not_found (message : string) (ctx : context_t) :
  holds_datetime ctx = false ->
  respond (Raise (ServerError message (Some 404)
                    (Some {| context := ctx; cause := CNone |})))
  = Failure {| body_message := message;
               body_detail := Some {| context := ctx; cause := CNone |};
               body_is_operational := true;
               response_status_code := 404 |}.
Proof. intros Hctx. unfold respond. cbn. rewrite Hctx. reflexivity. Qed.

Lemma respond_internal (message : string) (d : Detail) :
  holds_datetime (context d) = false ->
  respond (Raise (ServerError message (Some 500) (Some d)))
  = Failure {| body_message := message;
               body_detail := Some d;
               body_is_operational := false;
               response_status_code := 500 |}.
Proof. intros Hctx. unfold respond. cbn. rewrite Hctx. reflexivity. Qed.

Lemma respond_row_answer (status : Z) (row : Row) :
  answers_row (respond (row_answer status row)) status row
  \/ rendering_raised (respond (row_answer status row)) row.
Proof.
  unfold answers_row, rendering_raised, row_answer.
  destruct (local_timestamps row) as [[created updated] | e] eqn:Hts.
  - left. exists created, updated. split; reflexivity.
  - right. destruct (local_timestamps_error row e Hts) as [cls [text ->]].
    eexists. eexists. split; reflexivity.
Qed.

Lemma fetch_user_cases (user_id : string) :
  rollback conn = Return tt ->
  (exists row, UserController.fetch_user (UserRepository.make db_service) user_id
               = row_answer 200 row)
  \/ UserController.fetch_user (UserRepository.make db_service) user_id
     = Raise (ServerError "User could not be read" (Some 404)
                (Some {| context := CtxStr user_id; cause := CNone |}))
  \/ (exists c, UserController.fetch_user (UserRepository.make db_service) user_id
                = Raise (ServerError "An error occurred when reading a user" (Some 500)
                           (Some {| context := CtxStr user_id; cause := CStr c |}))).
Proof.
  intros Hrb. unfold UserController.fetch_user, UserService.retrieve_user.
  change (read_user (UserRepository.make db_service) user_id) with (UserRepository.read_user db_service user_id).
  destruct (read_outcomes db_service engine conn Hengine Hconn user_id Hrb)
    as [-> | [[row ->] | [c ->]]]; cbn [try_except bind].
  - right. left. reflexivity.
  - left. exists row. apply (to_response_of_row row 200).
  - right. right. exists c. reflexivity.
Qed.

Lemma destroy_user_cases (user_id : string) :
  rollback conn = Return tt ->
  (exists row, UserController.destroy_user (UserRepository.make db_service) user_id
               = row_answer 200 row)
  \/ UserController.destroy_user (UserRepository.make db_service) user_id
     = Raise (ServerError "User could not be removed" (Some 404)
                (Some {| context := CtxStr user_id; cause := CNone |}))
  \/ (exists c, UserController.destroy_user (UserRepository.make db_service) user_id
                = Raise (ServerError "An error occurred when deleting a user" (Some 500)
                           (Some {| context := CtxStr user_id; cause := CStr c |}))).
Proof.
  intros Hrb. unfold UserController.destroy_user, UserService.remove_user.
  change (delete_user (UserRepository.make db_service) user_id) with (UserRepository.delete_user db_service user_id).
  destruct (delete_outcomes db_service engine conn Hengine Hconn user_id Hrb)
    as [-> | [[row ->] | [c ->]]]; cbn [try_except bind].
  - right. left. reflexivity.
  - left. exists row. apply (to_response_of_row row 200).
  - right. right. exists c. reflexivity.
Qed.

Lemma renew_user_cases (user_id : string) (req : UserRequest) :
  rollback conn = Return tt ->
  let user := {| id := None; name := req_name req; email := req_email req;
                 created_at := None; updated_at := None |} in
  (exists row, UserController.renew_user (UserRepository.make db_service) user_id req
               = row_answer 200 row)
  \/ UserController.renew_user (UserRepository.make db_service) user_id req
     = Raise (ServerError "User could not be updated" (Some 404)
                (Some {| context := CtxUserUpdate user_id user; cause := CNone |}))
  \/ (exists c, UserController.renew_user (UserRepository.make db_service) user_id req
                = Raise (ServerError "An error occurred when updating a user" (Some 500)
                           (Some {| context := CtxUserUpdate user_id user;
                                    cause := CStr c |}))).
Proof.
  intros Hrb. cbv zeta. unfold UserController.renew_user.
  rewrite to_domain_request. cbn [bind]. unfold UserService.replace_user.
  match goal with
  | |- context [update_user (UserRepository.make db_service) user_id ?u] =>
      change (update_user (UserRepository.make db_service) user_id u)
        with (UserRepository.update_user db_service user_id u);
      destruct (update_outcomes db_service engine conn Hengine Hconn user_id u Hrb)
        as [-> | [[row ->] | [c ->]]]; cbn [try_except bind]
  end.
  - right. left. reflexivity.
  - left. exists row. apply (to_response_of_row row 200).
  - right. right. exists c. reflexivity.
Qed.

Lemma add_user_cases (req : UserRequest) :
  rollback conn = Return tt ->
  let user := {| id := None; name := req_name req; email := req_email req;
                 created_at := None; updated_at := None |} in
  (exists row, UserController.add_user (UserRepository.make db_service) req
               = row_answer 201 row)
  \/ (exists c, UserController.add_user (UserRepository.make db_service) req
                = Raise (ServerError "An error occurred when creating a user" (Some 500)
                           (Some {| context := CtxUser user; cause := CStr c |}))).
Proof.
  intros Hrb. cbv zeta. unfold UserController.add_user.
  rewrite to_domain_request. cbn [bind]. unfold UserService.register_user.
  match goal with
  | |- context [create_user (UserRepository.make db_service) ?u] =>
      change (create_user (UserRepository.make db_service) u) with (UserRepository.create_user db_service u);
      destruct (create_outcomes db_service engine conn Hengine Hconn u Hrb)
        as [[row ->] | [c ->]]; cbn [try_except bind]
  end.
  - left. exists row. apply (to_response_of_row row 201).
  - right. exists c. reflexivity.
Qed.

End Routes.

(** On an acquired connection whose rollback succeeds, each of the three
    routes by identifier ends in one of four ways: status 200 with the
    rendering of a storage row; the 404 body of the route, marked
    operational, with the identifier as context; a 500 body, marked not
    operational; or, when [astimezone()] raises for a timestamp of the row,
    no body at all, because the handler for that error raises too.  For
    the errors the services build, the exception handlers always produce
    the error body. *)
Theorem user_routes_by_id_answer :
  forall (R : Runtime) (db_service : DBService) (engine : AsyncEngine)
         (conn : AsyncConnection) (user_id : string) (req : UserRequest),
    private_async_engine db_service = Some engine ->
    connect engine = Return conn ->
    rollback conn = Return tt ->
    let repo := UserRepository.make db_service in
    let user := {| id := None; name := req_name req; email := req_email req;
                   created_at := None; updated_at := None |} in
    ((exists row, answers_row (respond (UserController.fetch_user repo user_id)) 200 row)
     \/ respond (UserController.fetch_user repo user_id)
        = Failure {| body_message := "User could not be read";
                     body_detail := Some {| context := CtxStr user_id; cause := CNone |};
                     body_is_operational := true;
                     response_status_code := 404 |}
     \/ (exists c, respond (UserController.fetch_user repo user_id)
                   = Failure {| body_message := "An error occurred when reading a user";
                                body_detail := Some {| context := CtxStr user_id;
                                                       cause := CStr c |};
                                body_is_operational := false;
                                response_status_code := 500 |})
     \/ (exists row,
           rendering_raised (respond (UserController.fetch_user repo user_id)) row))
    /\
    ((exists row,
         answers_row (respond (UserController.renew_user repo user_id req)) 200 row)
     \/ respond (UserController.renew_user repo user_id req)
        = Failure {| body_message := "User could not be updated";
                     body_detail := Some {| context := CtxUserUpdate user_id user;
                                            cause := CNone |};
                     body_is_operational := true;
                     response_status_code := 404 |}
     \/ (exists c, respond (UserController.renew_user repo user_id req)
                   = Failure {| body_message := "An error occurred when updating a user";
                                body_detail := Some {| context := CtxUserUpdate user_id user;
                                                       cause := CStr c |};
                                body_is_operational := false;
                                response_status_code := 500 |})
     \/ (exists row,
           rendering_raised (respond (UserController.renew_user repo user_id req)) row))
    /\
    ((exists row, answers_row (respond (UserController.destroy_user repo user_id)) 200 row)
     \/ respond (UserController.destroy_user repo user_id)
        = Failure {| body_message := "User could not be removed";
                     body_detail := Some {| context := CtxStr user_id; cause := CNone |};
                     body_is_operational := true;
                     response_status_code := 404 |}
     \/ (exists c, respond (UserController.destroy_user repo user_id)
                   = Failure {| body_message := "An error occurred when deleting a user";
                                body_detail := Some {| context := CtxStr user_id;
                                                       cause := CStr c |};
                                body_is_operational := false;
                                response_status_code := 500 |})
     \/ (exists row,
           rendering_raised (respond (UserController.destroy_user repo user_id)) row)).
Proof.
  intros R db_service engine conn user_id req Hengine Hconn Hrb. cbv zeta.
  split; [| split].
  - destruct (fetch_user_cases db_service engine conn Hengine Hconn user_id Hrb)
      as [[row ->] | [-> | [c ->]]].
    + destruct (respond_row_answer 200 row) as [Hrow | Hrow].
      * left. exists row. exact Hrow.
      * right. right. right. exists row. exact Hrow.
    + right. left. reflexivity.
    + right. right. left. exists c. reflexivity.
  - destruct (renew_user_cases db_service engine conn Hengine Hconn user_id req Hrb)
      as [[row ->] | [-> | [c ->]]].
    + destruct (respond_row_answer 200 row) as [Hrow | Hrow].
      * left. exists row. exact Hrow.
      * right. right. right. exists row. exact Hrow.
    + right. left. reflexivity.
    + right. right. left. exists c. reflexivity.
  - destruct (destroy_user_cases db_service engine conn Hengine Hconn user_id Hrb)
      as [[row ->] | [-> | [c ->]]].
    + destruct (respond_row_answer 200 row) as [Hrow | Hrow].
      * left. exists row. exact Hrow.
      * right. right. right. exists row. exact Hrow.
    + right. left. reflexivity.
    + right. right. left. exists c. reflexivity.
Qed.

Lemma user_routes_by_id_answer_witness :
  @respond SampleRuntime.runtime
    (@UserController.fetch_user SampleRuntime.runtime
       (@UserRepository.make SampleRuntime.runtime SampleRuntime.db_no_rows)
       "01234567-89ab-cdef-0123-456789abcdef")
  = Failure
      {| body_message := "User could not be read";
         body_detail := Some {| context := CtxStr "01234567-89ab-cdef-0123-456789abcdef";
                                cause := CNone |};
         body_is_operational := true;
         response_status_code := 404 |}.
Proof.
  destruct (proj1 (user_routes_by_id_answer SampleRuntime.runtime SampleRuntime.db_no_rows
                     {| connect := Return SampleRuntime.conn_no_rows |}
                     SampleRuntime.conn_no_rows "01234567-89ab-cdef-0123-456789abcdef"
                     {| req_name := "alice"; req_email := "a@x.com" |}
                     eq_refl eq_refl eq_refl))
    as [[row [created [updated [_ Hrow]]]] | [H404 | [[c H500] | [row [e [e' [_ Hrow]]]]]]].
  - discriminate Hrow.
  - exact H404.
  - discriminate H500.
  - discriminate Hrow.
Defined.

(** On an acquired connection whose rollback succeeds, the create route
    ends in one of three ways: status 201 with the rendering of a storage
    row; a 500 body marked not operational; or, when [astimezone()] raises
    for a timestamp of the row, no body at all.  It never answers 404. *)
Theorem add_user_answer :
  forall (R : Runtime) (db_service : DBService) (engine : AsyncEngine)
         (conn : AsyncConnection) (req : UserRequest),
    private_async_engine db_service = Some engine ->
    connect engine = Return conn ->
    rollback conn = Return tt ->
    let repo := UserRepository.make db_service in
    let user := {| id := None; name := req_name req; email := req_email req;
                   created_at := None; updated_at := None |} in
    (exists row, answers_row (respond (UserController.add_user repo req)) 201 row)
    \/ (exists c, respond (UserController.add_user repo req)
                  = Failure {| body_message := "An error occurred when creating a user";
                               body_detail := Some {| context := CtxUser user;
                                                      cause := CStr c |};
                               body_is_operational := false;
                               response_status_code := 500 |})
    \/ (exists row, rendering_raised (respond (UserController.add_user repo req)) row).
Proof.
  intros R db_service engine conn req Hengine Hconn Hrb. cbv zeta.
  destruct (add_user_cases db_service engine conn Hengine Hconn req Hrb)
    as [[row ->] | [c ->]].
  - destruct (respond_row_answer 201 row) as [Hrow | Hrow].
    + left. exists row. exact Hrow.
    + right. right. exists row. exact Hrow.
  - right. left. exists c. reflexivity.
Qed.

Lemma add_user_answer_witness :
  @respond SampleRuntime.runtime
    (@UserController.add_user SampleRuntime.runtime
       (@UserRepository.make SampleRuntime.runtime SampleRuntime.db_one_row)
       {| req_name := "alice"; req_email := "a@x.com" |})
  = Success 201 (response_of_row SampleRuntime.row {| wall := 0; tzinfo := Some 0 |} None).
Proof.
  destruct (add_user_answer SampleRuntime.runtime SampleRuntime.db_one_row
              {| connect := Return SampleRuntime.conn_one_row |}
              SampleRuntime.conn_one_row
              {| req_name := "alice"; req_email := "a@x.com" |}
              eq_refl eq_refl eq_refl)
    as [[row [created [updated [_ Hrow]]]] | [[c H500] | [row [e [e' [_ Hrow]]]]]].
  - reflexivity.
  - discriminate H500.
  - discriminate Hrow.
Defined.

(** When the statement of a route affects rows, the first row can be read
    and the commit succeeds, the route renders that row: it returns status
    201 for the create route (whatever the row count says) and status 200
    for the routes by identifier, with the row's fields and its timestamps
    moved to the local zone, or raises the error of [astimezone()] when
    that call raises for one of the timestamps. *)
Theorem routes_render_the_returned_row :
  forall (R : Runtime) (db_service : DBService) (engine : AsyncEngine)
         (conn : AsyncConnection) (row : Row),
    private_async_engine db_service = Some engine ->
    connect engine = Return conn ->
    commit conn = Return tt ->
    let repo := UserRepository.make db_service in
    (forall req res,
        execute conn (InsertUser [("name", VStr (req_name req));
                                  ("email", VStr (req_email req))]) = Return res ->
        first res = Some row ->
        UserController.add_user repo req = row_answer 201 row)
    /\
    (forall user_id uid res,
        uuid_of_string user_id = Some uid ->
        execute conn (SelectUser uid) = Return res ->
        rowcount res <> 0 -> first res = Some row ->
        UserController.fetch_user repo user_id = row_answer 200 row)
    /\
    (forall user_id uid req res,
        uuid_of_string user_id = Some uid ->
        execute conn (UpdateUser uid (req_name req) (req_email req)) = Return res ->
        rowcount res <> 0 -> first res = Some row ->
        UserController.renew_user repo user_id req = row_answer 200 row)
    /\
    (forall user_id uid res,
        uuid_of_string user_id = Some uid ->
        execute conn (DeleteUser uid) = Return res ->
        rowcount res <> 0 -> first res = Some row ->
        UserController.destroy_user repo user_id = row_answer 200 row)
    /\
    (forall status,
        (forall created updated,
            local_timestamps row = Return (created, updated) ->
            row_answer status row
            = Return (status, response_of_row row created updated))
        /\ (forall e, local_timestamps row = Raise e -> row_answer status row = Raise e)).
Proof.
  intros R db_service engine conn row Hengine Hconn Hcommit. cbv zeta.
  split; [| split; [| split; [| split]]].
  - intros req res Hex Hfirst. unfold UserController.add_user.
    rewrite to_domain_request. cbn [bind]. unfold UserService.register_user.
    match goal with
    | |- context [create_user (UserRepository.make db_service) ?u] =>
        change (create_user (UserRepository.make db_service) u)
          with (UserRepository.create_user db_service u);
        rewrite (create_found db_service engine conn Hengine Hconn u res row Hex Hfirst Hcommit)
    end.
    cbn [try_except bind]. apply (to_response_of_row row 201).
  - intros user_id uid res Hid Hex Hrc Hfirst.
    unfold UserController.fetch_user, UserService.retrieve_user.
    change (read_user (UserRepository.make db_service) user_id)
      with (UserRepository.read_user db_service user_id).
    rewrite (read_found db_service engine conn Hengine Hconn user_id uid res row
               Hid Hex Hrc Hfirst Hcommit).
    cbn [try_except bind]. apply (to_response_of_row row 200).
  - intros user_id uid req res Hid Hex Hrc Hfirst.
    unfold UserController.renew_user.
    rewrite to_domain_request. cbn [bind]. unfold UserService.replace_user.
    match goal with
    | |- context [update_user (UserRepository.make db_service) user_id ?u] =>
        change (update_user (UserRepository.make db_service) user_id u)
          with (UserRepository.update_user db_service user_id u);
        rewrite (update_found db_service engine conn Hengine Hconn user_id u uid res row
                   Hid Hex Hrc Hfirst Hcommit)
    end.
    cbn [try_except bind]. apply (to_response_of_row row 200).
  - intros user_id uid res Hid Hex Hrc Hfirst.
    unfold UserController.destroy_user, UserService.remove_user.
    change (delete_user (UserRepository.make db_service) user_id)
      with (UserRepository.delete_user db_service user_id).
    rewrite (delete_found db_service engine conn Hengine Hconn user_id uid res row
               Hid Hex Hrc Hfirst Hcommit).
    cbn [try_except bind]. apply (to_response_of_row row 200).
  - intros status. unfold row_answer. split.
    + intros created updated ->. reflexivity.
    + intros e ->. reflexivity.
Qed.

Lemma routes_render_the_returned_row_witness :
  @UserController.fetch_user SampleRuntime.runtime
    (@UserRepository.make SampleRuntime.runtime SampleRuntime.db_one_row)
    "01234567-89ab-cdef-0123-456789abcdef"
  = @row_answer SampleRuntime.runtime 200 SampleRuntime.row.
Proof.
  apply (proj1 (proj2 (routes_render_the_returned_row SampleRuntime.runtime
                         SampleRuntime.db_one_row
                         {| connect := Return SampleRuntime.conn_one_row |}
                         SampleRuntime.conn_one_row SampleRuntime.row
                         eq_refl eq_refl eq_refl))
           "01234567-89ab-cdef-0123-456789abcdef"
           {| hex := "0123456789abcdef0123456789abcdef" |}
           {| rowcount := 1; first := Some SampleRuntime.row |});
    try reflexivity.
  discriminate.
Defined.

(** A commit that fails after an update or a delete affected rows turns the
    call into the operation's internal error with status 500, carrying the
    text of the commit error's cause (given that the rollback succeeds); the
    row is not returned. *)
Theorem failed_commit_is_internal_error :
  forall (R : Runtime) (db_service : DBService) (engine : AsyncEngine)
         (conn : AsyncConnection) (user_id : string) (uid : UUID) (user : User)
         (row : Row) (e : exn),
    private_async_engine db_service = Some engine ->
    connect engine = Return conn ->
    uuid_of_string user_id = Some uid ->
    commit conn = Raise e ->
    rollback conn = Return tt ->
    (forall res,
        execute conn (UpdateUser uid (name user) (email user)) = Return res ->
        rowcount res <> 0 -> first res = Some row ->
        UserRepository.update_user db_service user_id user
        = Raise (ServerError "An error occurred when updating a user from database"
                   (Some 500)
                   (Some {| context := CtxUserUpdate user_id user;
                            cause := CStr (str_of_dunder_cause e) |})))
    /\
    (forall res,
        execute conn (DeleteUser uid) = Return res ->
        rowcount res <> 0 -> first res = Some row ->
        UserRepository.delete_user db_service user_id
        = Raise (ServerError "An error occurred when deleting a user from database"
                   (Some 500)
                   (Some {| context := CtxStr user_id;
                            cause := CStr (str_of_dunder_cause e) |}))).
Proof.
  intros R db_service engine conn user_id uid user row e Hengine Hconn Hid Hcommit Hrb.
  split; intros res Hex Hrc Hfirst.
  - exact (update_commit_fails db_service engine conn Hengine Hconn user_id user uid res
             row e Hid Hex Hrc Hfirst Hcommit Hrb).
  - exact (delete_commit_fails db_service engine conn Hengine Hconn user_id uid res
             row e Hid Hex Hrc Hfirst Hcommit Hrb).
Qed.

Lemma failed_commit_is_internal_error_witness :
  @UserRepository.delete_user SampleRuntime.runtime SampleRuntime.db_commit_fails
    "01234567-89ab-cdef-0123-456789abcdef"
  = Raise (ServerError "An error occurred when deleting a user from database" (Some 500)
             (Some {| context := CtxStr "01234567-89ab-cdef-0123-456789abcdef";
                      cause := CStr "connection is closed" |})).
Proof.
  apply (proj2 (failed_commit_is_internal_error SampleRuntime.runtime
                  SampleRuntime.db_commit_fails
                  {| connect := Return SampleRuntime.conn_commit_fails |}
                  SampleRuntime.conn_commit_fails
                  "01234567-89ab-cdef-0123-456789abcdef"
                  {| hex := "0123456789abcdef0123456789abcdef" |}
                  {| id := None; name := "alice"; email := "a@x.com";
                     created_at := None; updated_at := None |}
                  SampleRuntime.row
                  (PyError "DBAPIError" "commit failed" (Some "connection is closed"))
                  eq_refl eq_refl eq_refl eq_refl eq_refl)
           {| rowcount := 1; first := Some SampleRuntime.row |});
    try reflexivity.
  discriminate.
Defined.

(** ** Configuration *)

(** Setting the database URL and reading it back: for a URL without a null
    character the assignment succeeds, [get_database_url] then returns
    that URL, and every other variable reads as before; a URL with a null
    character is refused. *)
Theorem database_url_set_then_get :
  forall (env : Config.environ) (database_url : string),
    (contains (String Config.NUL "") database_url = false ->
     exists env',
       Config.set_database_url env database_url = Return env'
       /\ Config.get_database_url env' = Return database_url
       /\ (forall name, name <> "DATABASE_URL" ->
             Config.get_env_var env' name = Config.get_env_var env name)
       /\ Config.get_port env' = Config.get_port env
       /\ Config.get_env env' = Config.get_env env
       /\ Config.get_log_level env' = Config.get_log_level env
       /\ Config.get_allowed_origins env' = Config.get_allowed_origins env)
    /\
    (contains (String Config.NUL "") database_url = true ->
     Config.set_database_url env database_url
     = Raise (PyError "ValueError" "embedded null byte" None)).
Proof.
  intros env database_url. unfold Config.set_database_url. split; intros ->.
  - eexists. split; [reflexivity |].
    split; [reflexivity |].
    split; [| repeat split].
    intros name Hne. unfold Config.get_env_var.
    now destruct (String.eqb_spec name "DATABASE_URL").
  - reflexivity.
Qed.

Lemma database_url_set_then_get_witness :
  exists env',
    Config.set_database_url (fun _ => None) "postgresql+asyncpg://db/users" = Return env'
    /\ Config.get_database_url env' = Return "postgresql+asyncpg://db/users".
Proof.
  destruct (proj1 (database_url_set_then_get (fun _ => None)
                     "postgresql+asyncpg://db/users") eq_refl)
    as [env' (Hset & Hget & _)].
  exists env'. split; assumption.
Defined.

(** A getter returns exactly the value the environment holds for its
    variable, the empty text included; when the variable is absent it
    raises an internal error with status 500 that names the variable,
    carries no [Detail] and is not operational. *)
Theorem config_getter_reads_environment :
  forall (env : Config.environ) (name : string),
    (forall value, Config.get_env_var env name = Return value <-> env name = Some value)
    /\
    (env name = None <->
     Config.get_env_var env name
     = Raise (ServerError (name ++ " environment variable isn't set!") (Some 500) None))
    /\ ServerErrorAttrs.is_operational (Some 500) = false.
Proof.
  intros env name. unfold Config.get_env_var.
  destruct (env name) as [v |]; repeat split; try discriminate; try reflexivity.
  - intros H. injection H as ->. reflexivity.
  - intros H. injection H as ->. reflexivity.
Qed.

(** ** The engine's life cycle *)

(** [connect_database] stores the created engine, which [async_engine]
    then returns, or raises an internal error holding the URL; a successful
    [disconnect_database] clears the engine, after which [async_engine]
    raises; and [disconnect_database] on a service without engine raises
    an internal error instead of doing nothing. *)
Theorem engine_life_cycle :
  forall (create_async_engine : string -> result AsyncEngine)
         (dispose : AsyncEngine -> result unit)
         (db_service : DBService) (database_url : string),
    (forall engine, create_async_engine database_url = Return engine ->
       exists db',
         DBServiceOps.connect_database create_async_engine db_service database_url
         = Return db'
         /\ async_engine db' = Return engine)
    /\
    (forall e, create_async_engine database_url = Raise e ->
       DBServiceOps.connect_database create_async_engine db_service database_url
       = Raise (ServerError "An error occurred when connecting to database" (Some 500)
                  (Some {| context := CtxStr database_url;
                           cause := CStr (str_of_dunder_cause e) |})))
    /\
    (forall engine, private_async_engine db_service = Some engine ->
       dispose engine = Return tt ->
       exists db',
         DBServiceOps.disconnect_database dispose db_service = Return db'
         /\ async_engine db'
            = Raise (ServerError "Async engine is None!" (Some 500) None))
    /\
    (private_async_engine db_service = None ->
     DBServiceOps.disconnect_database dispose db_service
     = Raise (ServerError "An error occurred when disconnecting the database" (Some 500)
                (Some {| context := CtxNone; cause := CStr "None" |}))).
Proof.
  intros create_async_engine dispose db_service database_url.
  unfold DBServiceOps.connect_database, DBServiceOps.disconnect_database.
  split; [| split; [| split]].
  - intros engine ->. eexists. split; reflexivity.
  - intros e ->. reflexivity.
  - intros engine -> ->. eexists. split; reflexivity.
  - intros ->. reflexivity.
Qed.

Lemma engine_life_cycle_witness :
  exists db',
    DBServiceOps.connect_database
      (fun _ => Return {| connect := Return SampleRuntime.conn_no_rows |})
      SampleRuntime.db_disconnected "postgresql+asyncpg://db/users" = Return db'
    /\ async_engine db' = Return {| connect := Return SampleRuntime.conn_no_rows |}.
Proof.
  exact (proj1 (engine_life_cycle
                  (fun _ => Return {| connect := Return SampleRuntime.conn_no_rows |})
                  (fun _ => Return tt)
                  SampleRuntime.db_disconnected "postgresql+asyncpg://db/users")
           {| connect := Return SampleRuntime.conn_no_rows |} eq_refl).
Defined.

(** After a successful [disconnect_database] the user service no longer
    reports an internal error: reading a user raises [AttributeError]. *)
Theorem service_after_disconnect :
  forall (R : Runtime) (dispose : AsyncEngine -> result unit)
         (db_service : DBService) (engine : AsyncEngine) (user_id : string),
    private_async_engine db_service = Some engine ->
    dispose engine = Return tt ->
    exists db',
      DBServiceOps.disconnect_database dispose db_service = Return db'
      /\ UserService.retrieve_user (UserRepository.make db') user_id
         = Raise (PyError "AttributeError" "'str' object has no attribute 'cause'" None).
Proof.
  intros R dispose db_service engine user_id Hengine Hdispose.
  unfold DBServiceOps.disconnect_database. rewrite Hengine. cbn [try_except bind].
  rewrite Hdispose. cbn [try_except bind]. eexists. split; reflexivity.
Qed.

Lemma service_after_disconnect_witness :
  exists db',
    DBServiceOps.disconnect_database (fun _ => Return tt) SampleRuntime.db_no_rows
    = Return db'
    /\ UserService.retrieve_user (@UserRepository.make SampleRuntime.runtime db') "x"
       = Raise (PyError "AttributeError" "'str' object has no attribute 'cause'" None).
Proof.
  exact (service_after_disconnect SampleRuntime.runtime (fun _ => Return tt)
           SampleRuntime.db_no_rows {| connect := Return SampleRuntime.conn_no_rows |}
           "x" eq_refl eq_refl).
Defined.

(** ** The health check *)

Lemma health_on_error_raises (err : exn) :
  exists e,
    (c <- UserService.cause_of_error err ;;
     @Raise bool (ServerError "An error occurred when checking if application is healthy"
                    (Some HTTP_500_INTERNAL_SERVER_ERROR)
                    (Some {| context := CtxNone; cause := CStr c |})))
    = Raise e.
Proof.
  destruct (UserService.cause_of_error err); cbn [bind]; eexists; reflexivity.
Qed.

Lemma alive_is_true (private_async_engine : option ProbeEngine) (b : bool) :
  HealthCheck.check_database_is_alive private_async_engine = Return b -> b = true.
Proof.
  unfold HealthCheck.check_database_is_alive.
  destruct private_async_engine as [engine |]; cbn [bind]; [| discriminate].
  destruct (probe_connect engine) as [conn | e]; cbn [bind]; [| discriminate].
  destruct (probe_execute conn "SELECT 1") as [[] | e]; cbn [bind try_except].
  - destruct (probe_commit conn) as [[] | e]; cbn [bind try_except].
    + intros H. now injection H.
    + destruct (probe_rollback conn); cbn [bind]; discriminate.
  - destruct (probe_rollback conn); cbn [bind]; discriminate.
Qed.

(** The health check never reports an unhealthy service: [check_health]
    returns only [True], and [get_health] answers only with status 200 and
    [healthy = True]; every other case is an exception.  Without an engine
    [check_health] raises an internal error with status 500 whose cause is
    the failed attribute access; on an acquired connection whose rollback
    succeeds it returns [True] or raises an internal error with status 500,
    and it returns [True] when the statement and the commit succeed. *)
Theorem health_is_true_or_error :
  forall private_async_engine : option ProbeEngine,
    (forall b, HealthCheck.check_health private_async_engine = Return b -> b = true)
    /\
    (forall status response,
        HealthCheck.get_health private_async_engine = Return (status, response) ->
        status = 200 /\ healthy response = true)
    /\
    (private_async_engine = None ->
     HealthCheck.check_health private_async_engine
     = Raise (ServerError "An error occurred when checking if application is healthy"
                (Some 500)
                (Some {| context := CtxNone;
                         cause := CStr "'NoneType' object has no attribute 'connect'" |})))
    /\
    (forall engine conn,
        private_async_engine = Some engine ->
        probe_connect engine = Return conn ->
        (probe_execute conn "SELECT 1" = Return tt -> probe_commit conn = Return tt ->
         HealthCheck.check_health private_async_engine = Return true)
        /\
        (probe_rollback conn = Return tt ->
         HealthCheck.check_health private_async_engine = Return true
         \/ exists c,
              HealthCheck.check_health private_async_engine
              = Raise (ServerError
                         "An error occurred when checking if application is healthy"
                         (Some 500)
                         (Some {| context := CtxNone; cause := CStr c |})))).
Proof.
  intros private_async_engine.
  assert (Htrue : forall b,
             HealthCheck.check_health private_async_engine = Return b -> b = true).
  { intros b. unfold HealthCheck.check_health.
    destruct (HealthCheck.check_database_is_alive private_async_engine) as [b' | err] eqn:Ha;
      cbn [try_except].
    - intros H. injection H as <-. now apply (alive_is_true private_async_engine).
    - destruct (health_on_error_raises err) as [e ->]. discriminate. }
  split; [exact Htrue |]. split; [| split].
  - intros status response. unfold HealthCheck.get_health.
    destruct (HealthCheck.check_health private_async_engine) as [b | e] eqn:Hc;
      cbn [bind]; [| discriminate].
    intros H. injection H as <- <-. rewrite (Htrue b eq_refl). split; reflexivity.
  - intros ->. reflexivity.
  - intros engine conn -> Hconn.
    unfold HealthCheck.check_health, HealthCheck.check_database_is_alive.
    cbn [bind]. rewrite Hconn. cbn [bind]. split.
    + intros -> ->. reflexivity.
    + intros Hrb.
      destruct (probe_execute conn "SELECT 1") as [[] | e]; cbn [bind try_except].
      * destruct (probe_commit conn) as [[] | e]; cbn [bind try_except].
        -- left. reflexivity.
        -- rewrite Hrb. cbn [bind try_except]. right. eexists. reflexivity.
      * rewrite Hrb. cbn [bind try_except]. right. eexists. reflexivity.
Qed.

Lemma health_is_true_or_error_witness :
  HealthCheck.check_health
    (Some {| probe_connect :=
               Return {| probe_execute := fun _ => Return tt;
                         probe_commit := Return tt;
                         probe_rollback := Return tt |} |})
  = Return true.
Proof.
  apply (proj1 (proj2 (proj2 (proj2 (health_is_true_or_error
           (Some {| probe_connect :=
                      Return {| probe_execute := fun _ => Return tt;
                                probe_commit := Return tt;
                                probe_rollback := Return tt |} |}))))
           _ _ eq_refl eq_refl));
    reflexivity.
Defined.

(** ** Query parameters of the links *)

Lemma after_first_app (c : ascii) (s q t : string) :
  URL.after_first c s = Some q -> URL.after_first c (s ++ t) = Some (q ++ t).
Proof.
  induction s as [| a s IH]; [discriminate |].
  cbn. destruct (Ascii.eqb a c); [intros H; now injection H as -> | exact IH].
Qed.

Lemma after_first_absent (c : ascii) (s t : string) :
  URL.has_char c s = false -> URL.after_first c (s ++ t) = URL.after_first c t.
Proof.
  induction s as [| a s IH]; [reflexivity |].
  cbn. destruct (Ascii.eqb a c); [discriminate | exact IH].
Qed.

Lemma after_first_none (c : ascii) (s : string) :
  URL.has_char c s = false -> URL.after_first c s = None.
Proof.
  intros H. rewrite <- (append_nil_r s). now rewrite after_first_absent.
Qed.

Lemma after_first_some_has_char (c : ascii) (s q : string) :
  URL.after_first c s = Some q -> URL.has_char c s = true.
Proof.
  induction s as [| a s IH]; [discriminate |].
  cbn. destruct (Ascii.eqb a c); [reflexivity | exact IH].
Qed.

Lemma has_char_after_first (c : ascii) (s : string) :
  URL.has_char c s = true -> exists q, URL.after_first c s = Some q.
Proof.
  induction s as [| a s IH]; [discriminate |].
  cbn. destruct (Ascii.eqb a c); [intros _; eexists; reflexivity | exact IH].
Qed.

Lemma after_first_decompose (c : ascii) (s q : string) :
  URL.after_first c s = Some q -> exists pre, s = pre ++ String c q.
Proof.
  induction s as [| a s IH]; [discriminate |].
  cbn. destruct (Ascii.eqb_spec a c) as [-> | _].
  - intros H. injection H as ->. exists "". reflexivity.
  - intros H. destruct (IH H) as [pre ->]. exists (String a pre). reflexivity.
Qed.

Lemma split_nonempty (c : ascii) (s : string) : URL.split c s <> [].
Proof.
  destruct s as [| a s]; [discriminate |].
  cbn. destruct (Ascii.eqb a c); [discriminate |].
  destruct (URL.split c s); discriminate.
Qed.

Lemma split_cons (c a : ascii) (s : string) :
  Ascii.eqb a c = false ->
  exists w ws, URL.split c s = w :: ws /\ URL.split c (String a s) = String a w :: ws.
Proof.
  intros Ha. cbn. rewrite Ha.
  destruct (URL.split c s) as [| w ws] eqn:E; [now destruct (split_nonempty c s) |].
  exists w, ws. split; reflexivity.
Qed.

Lemma split_app (c : ascii) (a b : string) :
  URL.split c (a ++ String c b) = (URL.split c a ++ URL.split c b)%list.
Proof.
  induction a as [| x a IH].
  - cbn. now rewrite Ascii.eqb_refl.
  - cbn. destruct (Ascii.eqb x c) eqn:Hx.
    + now rewrite IH.
    + rewrite IH.
      destruct (URL.split c a) as [| w ws] eqn:E; [now destruct (split_nonempty c a) |].
      reflexivity.
Qed.

Lemma split_absent (c : ascii) (s : string) :
  URL.has_char c s = false -> URL.split c s = [s].
Proof.
  induction s as [| a s IH]; [reflexivity |].
  cbn. destruct (Ascii.eqb a c); [discriminate |].
  intros H. now rewrite (IH H).
Qed.

(** Appending a text without separator extends the last piece. *)
Lemma split_app_tail (c : ascii) (q t : string) :
  URL.has_char c t = false ->
  exists init l,
    URL.split c q = (init ++ [l])%list
    /\ URL.split c (q ++ t) = (init ++ [(l ++ t)%string])%list.
Proof.
  intros Ht. induction q as [| a q IH].
  - exists [], "". split; [reflexivity |]. cbn. now apply split_absent.
  - destruct IH as (init & l & Hq & Hqt). cbn.
    destruct (Ascii.eqb a c).
    + exists ("" :: init), l. rewrite Hq, Hqt. split; reflexivity.
    + rewrite Hq, Hqt. destruct init as [| w ws]; cbn.
      * exists [], (String a l). split; reflexivity.
      * exists (String a w :: ws), l. split; reflexivity.
Qed.

Lemma piece_is_substring (c : ascii) (q p : string) :
  In p (URL.split c q) -> exists a b, q = a ++ p ++ b.
Proof.
  revert p. induction q as [| x q IH]; intros p Hin.
  - cbn in Hin. destruct Hin as [<- | []]. exists "", "". reflexivity.
  - cbn in Hin. destruct (Ascii.eqb_spec x c) as [-> | Hne].
    + destruct Hin as [<- | Hin].
      * exists "", (String c q). reflexivity.
      * destruct (IH p Hin) as (a & b & ->). exists (String c a), b. reflexivity.
    + destruct (URL.split c q) as [| w ws] eqn:E; [now destruct (split_nonempty c q) |].
      destruct Hin as [<- | Hin].
      * destruct (IH w (or_introl eq_refl)) as (a & b & Hq).
        (* the first piece starts the text *)
        assert (Hw : exists b', q = w ++ b').
        { clear - E. revert w ws E. induction q as [| y q IHq]; intros w ws E.
          - cbn in E. injection E as <- <-. exists "". reflexivity.
          - cbn in E. destruct (Ascii.eqb y c).
            + injection E as <- <-. exists (String y q). reflexivity.
            + destruct (URL.split c q) as [| w' ws'] eqn:E';
                [now destruct (split_nonempty c q) |].
              injection E as <- <-. destruct (IHq w' ws' eq_refl) as [b' ->].
              exists b'. reflexivity. }
        destruct Hw as [b' ->]. exists "", b'. reflexivity.
      * destruct (IH p (or_intror Hin)) as (a & b & ->).
        exists (String x a), b. reflexivity.
Qed.

Lemma before_first_is_prefix (c : ascii) (p : string) :
  exists rest, p = URL.before_first c p ++ rest.
Proof.
  induction p as [| a p [rest IH]]; [exists ""; reflexivity |].
  cbn. destruct (Ascii.eqb a c).
  - exists (String a p). reflexivity.
  - exists rest. cbn. now rewrite <- IH.
Qed.

Lemma before_first_app_absent (c : ascii) (l m : string) :
  URL.has_char c l = false ->
  URL.before_first c (l ++ m) = l ++ URL.before_first c m.
Proof.
  induction l as [| a l IH]; [reflexivity |].
  cbn. destruct (Ascii.eqb a c); [discriminate |].
  intros H. now rewrite (IH H).
Qed.

Lemma before_first_app_present (c : ascii) (l m : string) :
  URL.has_char c l = true ->
  URL.before_first c (l ++ m) = URL.before_first c l.
Proof.
  induction l as [| a l IH]; [discriminate |].
  cbn. destruct (Ascii.eqb a c); [reflexivity |].
  intros H. now rewrite (IH H).
Qed.

Lemma startswith_app_l (k p b : string) :
  startswith k p = true -> startswith k (p ++ b) = true.
Proof.
  revert p. induction k as [| x k IH]; intros p; [reflexivity |].
  destruct p as [| y p]; [discriminate |].
  cbn. destruct (Ascii.eqb x y); [apply IH | discriminate].
Qed.

Lemma contains_app_l (k p b : string) :
  contains k p = true -> contains k (p ++ b) = true.
Proof.
  induction p as [| y p IH].
  - cbn. rewrite orb_false_r. intros H.
    destruct k; [destruct b; reflexivity | discriminate].
  - change (contains k (String y p)) with (startswith k (String y p) || contains k p).
    change (contains k (String y p ++ b))
      with (startswith k (String y p ++ b) || contains k (p ++ b)).
    intros H. apply orb_true_iff in H as [H | H].
    + now rewrite (startswith_app_l k (String y p) b H).
    + rewrite (IH H). apply orb_true_r.
Qed.

Lemma contains_middle (k a b : string) : contains k (a ++ k ++ b) = true.
Proof. apply contains_app_r, contains_prefix. Qed.

(** The name of a query parameter occurs as text in the URL. *)
Lemma param_name_occurs (key url : string) :
  URL.has_param key url = true -> contains key url = true.
Proof.
  unfold URL.has_param, URL.param_names.
  destruct (URL.after_first "?" url) as [q |] eqn:Hq; [| discriminate].
  intros H. apply existsb_exists in H as (n & Hin & Hn).
  apply String.eqb_eq in Hn. subst n.
  apply in_map_iff in Hin as (p & Hp & Hin).
  destruct (after_first_decompose _ _ _ Hq) as [pre ->].
  destruct (piece_is_substring _ _ _ Hin) as (a & b & ->).
  destruct (before_first_is_prefix "=" p) as [rest Hrest].
  rewrite Hp in Hrest. subst p.
  apply contains_app_r.
  change (String "?" (a ++ (key ++ rest) ++ b)) with (String "?" a ++ (key ++ rest) ++ b).
  rewrite (append_assoc_s key rest b). apply contains_middle.
Qed.



Lemma has_char_app (c : ascii) (a b : string) :
  URL.has_char c (a ++ b) = URL.has_char c a || URL.has_char c b.
Proof.
  induction a as [| x a IH]; [reflexivity |].
  cbn. rewrite IH. now rewrite orb_assoc.
Qed.

(** The decimal text of an integer holds none of the characters that
    structure a query. *)
Lemma decimal_has_no_delimiter (c : ascii) (n : Z) :
  c = "&"%char \/ c = "?"%char \/ c = "="%char ->
  URL.has_char c (str_of_int n) = false.
Proof.
  intros Hc. unfold str_of_int.
  assert (Hu : forall d, URL.has_char c (NilEmpty.string_of_uint d) = false).
  { induction d; cbn; try exact IHd;
      destruct Hc as [-> | [-> | ->]]; cbn; try reflexivity; exact IHd. }
  assert (Hz : forall d, URL.has_char c (NilZero.string_of_uint d) = false).
  { intros d. destruct d; try apply Hu.
    destruct Hc as [-> | [-> | ->]]; reflexivity. }
  destruct (Z.to_int n) as [d | d]; cbn.
  - apply Hz.
  - rewrite Hz. destruct Hc as [-> | [-> | ->]]; reflexivity.
Qed.

Lemma append_page_is_not_page (l : string) : l ++ "?page" <> "page".
Proof.
  destruct l as [| a1 [| a2 [| a3 [| a4 [| a5 l]]]]]; cbn; discriminate.
Qed.

Lemma no_page_piece (url q p : string) :
  contains "page" url = false ->
  URL.after_first "?" url = Some q ->
  In p (URL.split "&" q) ->
  URL.before_first "=" p <> "page".
Proof.
  intros Hno Hq Hin Hname.
  assert (Hp : URL.has_param "page" url = true).
  { unfold URL.has_param, URL.param_names. rewrite Hq.
    apply existsb_exists. exists (URL.before_first "=" p). split.
    - apply in_map. exact Hin.
    - rewrite Hname. reflexivity. }
  rewrite (param_name_occurs "page" url Hp) in Hno. discriminate.
Qed.

Section AppendedLinks.
Variables (base_url : string) (page limit total_records : Z).
Hypothesis Hno_page : contains "page" base_url = false.
Hypothesis Hnext : get_next_page base_url page limit total_records <> None.

Lemma next_link_with_limit_text :
  contains "limit" base_url = true ->
  get_next_page base_url page limit total_records
  = Some (base_url ++ "&page=" ++ str_of_int (page + 1)).
Proof.
  intros Hl. revert Hnext. unfold get_next_page.
  destruct (_ <=? 0); [contradiction |].
  now rewrite Hno_page, Hl.
Qed.

Lemma next_link_without_limit_text :
  contains "limit" base_url = false ->
  get_next_page base_url page limit total_records
  = Some (base_url ++ "?page=" ++ str_of_int (page + 1) ++ "&limit=1").
Proof.
  intros Hl. revert Hnext. unfold get_next_page.
  destruct (_ <=? 0); [contradiction |].
  now rewrite Hno_page, Hl.
Qed.

Lemma names_after_appended_page (q : string) :
  URL.after_first "?" base_url = Some q ->
  URL.param_names (base_url ++ "&page=" ++ str_of_int (page + 1))
  = (URL.param_names base_url ++ ["page"])%list.
Proof.
  intros Hq. unfold URL.param_names.
  rewrite (after_first_app _ _ _ _ Hq), Hq.
  change (q ++ "&page=" ++ str_of_int (page + 1))
    with (q ++ String "&" ("page=" ++ str_of_int (page + 1))).
  rewrite split_app, map_app. f_equal.
  rewrite split_absent.
  - reflexivity.
  - cbn. apply decimal_has_no_delimiter. left. reflexivity.
Qed.

Lemma names_without_query :
  URL.has_char "?" base_url = false ->
  URL.param_names (base_url ++ "&page=" ++ str_of_int (page + 1)) = [].
Proof.
  intros Hq. unfold URL.param_names.
  rewrite (after_first_absent _ _ _ Hq).
  rewrite after_first_none; [reflexivity |].
  cbn. apply decimal_has_no_delimiter. right. left. reflexivity.
Qed.

Lemma names_of_fresh_query :
  URL.has_char "?" base_url = false ->
  URL.param_names (base_url ++ "?page=" ++ str_of_int (page + 1) ++ "&limit=1")
  = ["page"; "limit"].
Proof.
  intros Hq. unfold URL.param_names.
  rewrite (after_first_absent _ _ _ Hq).
  change (URL.after_first "?" ("?page=" ++ str_of_int (page + 1) ++ "&limit=1"))
    with (Some ("page=" ++ str_of_int (page + 1) ++ "&limit=1")).
  change ("page=" ++ str_of_int (page + 1) ++ "&limit=1")
    with ("page=" ++ (str_of_int (page + 1) ++ String "&" "limit=1")).
  rewrite <- (append_assoc_s "page=" (str_of_int (page + 1)) (String "&" "limit=1")).
  rewrite split_app, map_app.
  rewrite split_absent.
  - reflexivity.
  - cbn. apply decimal_has_no_delimiter. left. reflexivity.
Qed.

Lemma no_page_name_after_second_query (q : string) :
  URL.after_first "?" base_url = Some q ->
  URL.has_param "page"
    (base_url ++ "?page=" ++ str_of_int (page + 1) ++ "&limit=1") = false.
Proof.
  intros Hq. unfold URL.has_param, URL.param_names.
  rewrite (after_first_app _ _ _ _ Hq).
  change (q ++ "?page=" ++ str_of_int (page + 1) ++ "&limit=1")
    with (q ++ ("?page=" ++ (str_of_int (page + 1) ++ String "&" "limit=1"))).
  rewrite <- (append_assoc_s "?page=" (str_of_int (page + 1)) (String "&" "limit=1")).
  rewrite <- (append_assoc_s q ("?page=" ++ str_of_int (page + 1)) (String "&" "limit=1")).
  rewrite split_app.
  assert (Ht : URL.has_char "&" ("?page=" ++ str_of_int (page + 1)) = false).
  { cbn. apply decimal_has_no_delimiter. left. reflexivity. }
  destruct (split_app_tail "&" q ("?page=" ++ str_of_int (page + 1)) Ht)
    as (init & l & Hsq & ->).
  destruct (existsb _ _) eqn:E; [| reflexivity].
  exfalso. apply existsb_exists in E as (n & Hin & Hn).
  apply String.eqb_eq in Hn. subst n.
  rewrite !map_app in Hin. cbn [map] in Hin.
  apply in_app_iff in Hin as [Hin | Hin]; [apply in_app_iff in Hin as [Hin | Hin] |].
  - apply in_map_iff in Hin as (p & Hp & Hin).
    apply (no_page_piece base_url q p Hno_page Hq); [| exact Hp].
    rewrite Hsq. apply in_app_iff. left. exact Hin.
  - destruct Hin as [Hl | []].
    assert (Hlin : In l (URL.split "&" q))
      by (rewrite Hsq; apply in_app_iff; right; left; reflexivity).
    destruct (URL.has_char "=" l) eqn:Heq.
    + rewrite before_first_app_present in Hl by exact Heq.
      now apply (no_page_piece base_url q l Hno_page Hq Hlin).
    + rewrite before_first_app_absent in Hl by exact Heq.
      change (URL.before_first "=" ("?page=" ++ str_of_int (page + 1)))
        with "?page" in Hl.
      now apply (append_page_is_not_page l).
  - cbn in Hin. destruct Hin as [Hl | []]. discriminate.
Qed.

End AppendedLinks.

(** The query parameters of an appended next link, for a base URL without
    the text [page] whose next link is not [None].  If the text [limit]
    occurs and the URL has a query, the link has the URL's parameters
    followed by [page]; if [limit] occurs but the URL has no query, the link
    has no query parameters at all.  If [limit] does not occur and the URL
    has no query, the link's parameters are [page] and [limit]; if the URL
    already has a query, the link has no [page] parameter. *)
Theorem appended_next_link_parameters :
  forall (base_url : string) (page limit total_records : Z),
    contains "page" base_url = false ->
    get_next_page base_url page limit total_records <> None ->
    exists link,
      get_next_page base_url page limit total_records = Some link
      /\ (contains "limit" base_url = true -> URL.has_char "?" base_url = true ->
          URL.param_names link = (URL.param_names base_url ++ ["page"])%list)
      /\ (contains "limit" base_url = true -> URL.has_char "?" base_url = false ->
          URL.param_names link = [])
      /\ (contains "limit" base_url = false -> URL.has_char "?" base_url = false ->
          URL.param_names link = ["page"; "limit"])
      /\ (contains "limit" base_url = false -> URL.has_char "?" base_url = true ->
          URL.has_param "page" link = false).
Proof.
  intros base_url page limit total_records Hno Hnext.
  destruct (contains "limit" base_url) eqn:Hl.
  - exists (base_url ++ "&page=" ++ str_of_int (page + 1)).
    split; [now apply next_link_with_limit_text |].
    repeat split; try discriminate.
    + intros _ Hq. destruct (has_char_after_first _ _ Hq) as [q Hq'].
      now apply (names_after_appended_page base_url page q).
    + intros _ Hq. now apply names_without_query.
  - exists (base_url ++ "?page=" ++ str_of_int (page + 1) ++ "&limit=1").
    split; [now apply next_link_without_limit_text |].
    repeat split; try discriminate.
    + intros _ Hq. now apply names_of_fresh_query.
    + intros _ Hq. destruct (has_char_after_first _ _ Hq) as [q Hq'].
      now apply (no_page_name_after_second_query base_url page Hno q).
Qed.

Lemma appended_next_link_parameters_witness :
  exists link,
    get_next_page "http://localhost:5002/users?order=desc" 1 1 3 = Some link
    /\ URL.has_param "page" link = false.
Proof.
  destruct (appended_next_link_parameters "http://localhost:5002/users?order=desc" 1 1 3
              eq_refl ltac:(vm_compute; discriminate))
    as [link (Hlink & _ & _ & _ & Hd)].
  exists link. split; [exact Hlink | apply Hd; reflexivity].
Defined.
